(** * Turnkey RPC proxy: request dispatch, upstream forwarding and the HTTP listener

    A shallow embedding of [src/index.ts] (class [TurnkeyRpcProxy]) and the
    properties of its JSON-RPC dispatch.

    The proxy computes nothing by itself: it reads a few properties of the
    parsed request, calls the signing client or the upstream node, and shapes
    the answer.  The embedding therefore keeps

    - JavaScript values as an inductive type, with [undefined] and [null], so
      that property reads on off-type input behave as they do at run time;
    - exceptions and remote calls in a small state-and-error monad whose state
      is the outside world together with the trace of calls made so far;
    - the built-ins of the JavaScript runtime ([JSON.parse], [JSON.stringify],
      [String]) and the two remote collaborators as parameters. *)

From Stdlib Require Import String Ascii List Bool Arith NArith Lia.
From Stdlib Require Import PrimFloat DecimalString.
Import ListNotations.
Local Open Scope string_scope.

Set Implicit Arguments.
Set Warnings "-register-all".

(** ** JavaScript values *)

(** What [JSON.parse] can return, plus [undefined], which a property read
    yields for a missing property.  Numbers are IEEE binary64, as in
    JavaScript; the proxy never computes with them.  An object is its list of
    own properties in insertion order. *)
Inductive jsval : Type :=
| JUndefined
| JNull
| JBool (b : bool)
| JNum (n : float)
| JStr (s : string)
| JArr (items : list jsval)
| JObj (fields : list (string * jsval)).

(** A thrown value: an instance of [Error] (with its [name] and [message]) or
    anything else a promise may be rejected with. *)
Inductive exn : Type :=
| ErrorObject (name message : string)
| ThrownValue (v : jsval).

(** The outcome of evaluating a piece of code. *)
Inductive Outcome (A : Type) : Type :=
| Returned (a : A)
| Threw (e : exn).
Arguments Returned {A} a.
Arguments Threw {A} e.

(** [null] and [undefined] are the two values no property can be read from. *)
Definition nullish (v : jsval) : bool :=
  match v with
  | JUndefined | JNull => true
  | _ => false
  end.

(** The value bound to [k] among the own properties, [undefined] if none. *)
Fixpoint lookup (k : string) (fields : list (string * jsval)) : jsval :=
  match fields with
  | [] => JUndefined
  | (k', v) :: rest => if String.eqb k k' then v else lookup k rest
  end.

(** A property is present when it is bound to something else than
    [undefined]; [JSON.stringify] writes exactly the present properties. *)
Definition present (k : string) (v : jsval) : bool :=
  match v with
  | JObj fields =>
      match lookup k fields with
      | JUndefined => false
      | _ => true
      end
  | _ => false
  end.

(** What [v.k] reads on a value that is neither [null] nor [undefined], for
    the names this program reads ([method], [params], [id], [domain],
    [types], [message]), none of which is on a built-in prototype: the own
    property of an object, [undefined] on any other value. *)
Definition prop (v : jsval) (k : string) : jsval :=
  match v with
  | JObj fields => lookup k fields
  | _ => JUndefined
  end.

(** The key under which an object stores what [o[i]] reads. *)
Definition index_key (i : nat) : string :=
  NilEmpty.string_of_uint (Nat.to_uint i).

(** Strict equality with a string literal, as in a [case] label of a
    [switch]: the value has to be a string, and the same one. *)
Definition is_case (v : jsval) (label : string) : bool :=
  match v with
  | JStr s => String.eqb s label
  | _ => false
  end.

(** Truthiness of an optional boolean configuration field. *)
Definition truthy (b : option bool) : bool :=
  match b with
  | Some true => true
  | _ => false
  end.

(** ** Configuration *)

Record TurnkeyConfig : Type := {
  baseUrl : string;
  organizationId : string;
  privateKeyId : string;
  apiPublicKey : string;
  apiPrivateKey : string
}.

Record ProxyConfig : Type := {
  port : N;
  upstreamRpcUrl : string;
  turnkeyConfig : TurnkeyConfig;
  enableLogging : option bool;
  enableCors : option bool
}.

(** ** Calls that leave the process *)

(** The second argument of [fetch]. *)
Record RequestInit : Type := {
  init_method : string;
  init_headers : list (string * string);
  init_body : string
}.

(** What [fetch] resolves to: the status line and the body, which either
    arrives in full or fails while it is read. *)
Record Response : Type := {
  resp_status : nat;
  resp_text : Outcome string
}.

(** What the signer's [sendTransaction] resolves to. *)
Record TransactionResponse : Type := {
  hash : string
}.

Inductive LogLevel : Type := Info | Debug | Error.

Inductive LogValue : Type :=
| LogJs (v : jsval)
| LogExn (e : exn)
| LogText (s : string).

(** Everything the proxy does that is visible from outside. *)
Inductive Event : Type :=
| EvLog (level : LogLevel) (message : string) (meta : list (string * LogValue))
| EvGetAddress
| EvSendTransaction (tx : jsval)
| EvSignTransaction (tx : jsval)
| EvSignMessage (msg : jsval)
| EvSignTypedData (domain types message : jsval)
| EvFetch (url : string) (init : RequestInit).

Definition is_fetch (e : Event) : bool :=
  match e with
  | EvFetch _ _ => true
  | _ => false
  end.

Definition is_log (e : Event) : bool :=
  match e with
  | EvLog _ _ _ => true
  | _ => false
  end.

(** ** The HTTP response object *)

Definition lower_ascii (c : ascii) : ascii :=
  let n := nat_of_ascii c in
  if ((65 <=? n) && (n <=? 90))%nat then ascii_of_nat (n + 32) else c.

Fixpoint lower (s : string) : string :=
  match s with
  | EmptyString => EmptyString
  | String c rest => String (lower_ascii c) (lower rest)
  end.

(** Header names are compared without regard to case. *)
Definition same_header (a b : string) : bool := String.eqb (lower a) (lower b).

Fixpoint put_header (name value : string) (hs : list (string * string))
  : list (string * string) :=
  match hs with
  | [] => [(name, value)]
  | (n, v) :: rest =>
      if same_header name n then (name, value) :: rest
      else (n, v) :: put_header name value rest
  end.

Fixpoint header (name : string) (hs : list (string * string)) : option string :=
  match hs with
  | [] => None
  | (n, v) :: rest => if same_header name n then Some v else header name rest
  end.

Record ServerResponse : Type := {
  headers : list (string * string);
  statusCode : option nat;
  payload : option string;
  finished : bool
}.

Definition fresh_response : ServerResponse :=
  {| headers := []; statusCode := None; payload := None; finished := false |}.

Definition setHeader (name value : string) (res : ServerResponse) : ServerResponse :=
  {| headers := put_header name value (headers res);
     statusCode := statusCode res;
     payload := payload res;
     finished := finished res |}.

(** [writeHead] merges its headers over the ones set before. *)
Definition writeHead (status : nat) (hs : list (string * string))
  (res : ServerResponse) : ServerResponse :=
  {| headers := fold_left (fun acc h => put_header (fst h) (snd h) acc) hs (headers res);
     statusCode := Some status;
     payload := payload res;
     finished := finished res |}.

Definition end_ (data : option string) (res : ServerResponse) : ServerResponse :=
  {| headers := headers res;
     statusCode := statusCode res;
     payload := data;
     finished := true |}.

(** The incoming HTTP request: its verb and, for each chunk of its body in
    turn, the text that chunk decodes to ([chunk.toString()]). *)
Record IncomingMessage : Type := {
  req_method : string;
  req_chunks : list string
}.

(** ** The proxy *)

Section Proxy.

(** The state of everything outside the process: the custodial signing
    service, the upstream node, the network. *)
Variable World : Type.

(** *** The collaborators *)

(** The signing client ([TurnkeySigner]), bound to one key.  Each operation
    is a remote call: it may fail, and it may change the world. *)
Record Signer : Type := {
  getAddress : World -> Outcome string * World;
  sendTransaction : jsval -> World -> Outcome TransactionResponse * World;
  signTransaction : jsval -> World -> Outcome string * World;
  signMessage : jsval -> World -> Outcome string * World;
  signTypedData : jsval -> jsval -> jsval -> World -> Outcome string * World
}.

(** The globals of the JavaScript runtime the proxy runs on. *)
Record Runtime : Type := {
  (** [JSON.parse] on a string: the parsed value, or a [SyntaxError]. *)
  JSON_parse : string -> Outcome jsval;
  (** [JSON.stringify] on a value that is not [undefined]. *)
  JSON_stringify : jsval -> string;
  (** [String(v)], the conversion [JSON.parse] also applies to its argument. *)
  ToString : jsval -> string;
  (** The engine's wording of "cannot read property [k] of [v]". *)
  type_error_message : jsval -> string -> string;
  (** [s[i]] on a string: the string of its [i]-th UTF-16 code unit,
      [undefined] past the end. *)
  string_at : string -> nat -> jsval;
  (** [fetch(url, init)]: the network. *)
  fetch : string -> RequestInit -> World -> Outcome Response * World
}.

(** The fields of the class; its logger is the trace of the state below. *)
Record TurnkeyRpcProxy : Type := {
  config : ProxyConfig;
  turnkeySigner : Signer
}.

Variable js : Runtime.
Variable this : TurnkeyRpcProxy.

(** *** The monad of the method bodies *)

Record State : Type := {
  world : World;
  trace : list Event
}.

Definition M (A : Type) : Type := State -> Outcome A * State.

Definition ret {A} (a : A) : M A := fun st => (Returned a, st).

Definition throw {A} (e : exn) : M A := fun st => (Threw e, st).

Definition bind {A B} (m : M A) (k : A -> M B) : M B :=
  fun st =>
    match m st with
    | (Returned a, st') => k a st'
    | (Threw e, st') => (Threw e, st')
    end.

(** [try { body } catch (error) { handler error }]: what the body did
    before it threw stays done. *)
Definition try_catch {A} (body : M A) (handler : exn -> M A) : M A :=
  fun st =>
    match body st with
    | (Returned a, st') => (Returned a, st')
    | (Threw e, st') => handler e st'
    end.

Definition lift {A} (o : Outcome A) : M A := fun st => (o, st).

(** The state once [e] has happened. *)
Definition record (e : Event) (st : State) : State :=
  {| world := world st; trace := trace st ++ [e] |}.

Definition emit (e : Event) : M unit :=
  fun st => (Returned tt, record e st).

(** A remote call: recorded in the trace, then run against the world. *)
Definition remote {A} (e : Event) (call : World -> Outcome A * World) : M A :=
  fun st =>
    let (o, w) := call (world st) in
    (o, {| world := w; trace := trace st ++ [e] |}).

Notation "x <- m ;; k" := (bind m (fun x => k))
  (at level 61, m at next level, right associativity).
Notation "m ;;; k" := (bind m (fun _ => k))
  (at level 61, right associativity).

(** *** Reading properties *)

Definition type_error (v : jsval) (k : string) : exn :=
  ErrorObject "TypeError" (type_error_message js v k).

(** [v.k]: a [TypeError] on [null] and [undefined]. *)
Definition get_field (v : jsval) (k : string) : Outcome jsval :=
  if nullish v then Threw (type_error v k) else Returned (prop v k).

(** [v[i]] for a literal index [i]. *)
Definition get_index (v : jsval) (i : nat) : Outcome jsval :=
  match v with
  | JUndefined | JNull => Threw (type_error v (index_key i))
  | JArr items => Returned (nth i items JUndefined)
  | JObj fields => Returned (lookup (index_key i) fields)
  | JStr s => Returned (string_at js s i)
  | _ => Returned JUndefined
  end.

(** *** The logger *)

Definition logger (level : LogLevel) (message : string)
  (meta : list (string * LogValue)) : M unit :=
  emit (EvLog level message meta).

(** *** Response envelopes *)

(** [{ jsonrpc: '2.0', result, id }] *)
Definition result_envelope (result id : jsval) : jsval :=
  JObj [("jsonrpc", JStr "2.0"); ("result", result); ("id", id)].

(** [error instanceof Error ? error.message : String(error)] *)
Definition error_detail (error : exn) : string :=
  match error with
  | ErrorObject _ message => message
  | ThrownValue v => ToString js v
  end.

(** [{ jsonrpc: '2.0', error: { code: -32603, message: 'Internal error',
    data: ... }, id }] *)
Definition internal_error_envelope (error : exn) (id : jsval) : jsval :=
  JObj [("jsonrpc", JStr "2.0");
        ("error", JObj [("code", JNum (-32603)%float);
                        ("message", JStr "Internal error");
                        ("data", JStr (error_detail error))]);
        ("id", id)].

(** [{ jsonrpc: '2.0', error: { code: -32700, message: 'Parse error' },
    id: null }] *)
Definition parse_error_envelope : jsval :=
  JObj [("jsonrpc", JStr "2.0");
        ("error", JObj [("code", JNum (-32700)%float);
                        ("message", JStr "Parse error")]);
        ("id", JNull)].

(** [{ error: 'Method not allowed' }] *)
Definition method_not_allowed_body : jsval :=
  JObj [("error", JStr "Method not allowed")].

(** *** [forwardToUpstream] *)

(** [response.json()]: read the body, then parse it. *)
Definition json (response : Response) : M jsval :=
  text <- lift (resp_text response) ;;
  lift (JSON_parse js text).

Definition upstream_init (request : jsval) : RequestInit :=
  {| init_method := "POST";
     init_headers := [("Content-Type", "application/json")];
     init_body := JSON_stringify js request |}.

Definition forwardToUpstream (request : jsval) : M jsval :=
  method <- lift (get_field request "method") ;;
  logger Debug "Forwarding request to upstream" [("method", LogJs method)] ;;;
  try_catch
    (response <- remote (EvFetch (upstreamRpcUrl (config this)) (upstream_init request))
                        (fetch js (upstreamRpcUrl (config this)) (upstream_init request)) ;;
     json response)
    (fun error =>
       logger Error "Error forwarding to upstream" [("error", LogExn error)] ;;;
       throw error).

(** *** [handleRequest] *)

(** How the [switch] is left: by [break] with [result] assigned, or by the
    [return] of the default case. *)
Inductive Completion : Type :=
| Break (result : jsval)
| Return (response : jsval).

Definition switch_method (request method params : jsval) : M Completion :=
  if is_case method "eth_accounts" then
    address <- remote EvGetAddress (getAddress (turnkeySigner this)) ;;
    ret (Break (JArr [JStr address]))
  else if is_case method "eth_sendTransaction" then
    arg <- lift (get_index params 0) ;;
    tx <- remote (EvSendTransaction arg) (sendTransaction (turnkeySigner this) arg) ;;
    logger Info "Transaction sent" [("hash", LogText (hash tx))] ;;;
    ret (Break (JStr (hash tx)))
  else if is_case method "eth_signTransaction" then
    arg <- lift (get_index params 0) ;;
    signed <- remote (EvSignTransaction arg) (signTransaction (turnkeySigner this) arg) ;;
    ret (Break (JStr signed))
  else if is_case method "eth_sign" || is_case method "personal_sign" then
    arg <- lift (get_index params 0) ;;
    signature <- remote (EvSignMessage arg) (signMessage (turnkeySigner this) arg) ;;
    ret (Break (JStr signature))
  else if is_case method "eth_signTypedData"
          || is_case method "eth_signTypedData_v3"
          || is_case method "eth_signTypedData_v4" then
    arg <- lift (get_index params 1) ;;
    typed <- lift (JSON_parse js (ToString js arg)) ;;
    domain <- lift (get_field typed "domain") ;;
    types <- lift (get_field typed "types") ;;
    message <- lift (get_field typed "message") ;;
    signature <- remote (EvSignTypedData domain types message)
                        (signTypedData (turnkeySigner this) domain types message) ;;
    ret (Break (JStr signature))
  else
    response <- forwardToUpstream request ;;
    ret (Return response).

(** The body of the [try] block. *)
Definition try_body (request method params id : jsval) : M jsval :=
  completion <- switch_method request method params ;;
  match completion with
  | Break result => ret (result_envelope result id)
  | Return response => ret response
  end.

Definition handleRequest (request : jsval) : M jsval :=
  method <- lift (get_field request "method") ;;
  params <- lift (get_field request "params") ;;
  id <- lift (get_field request "id") ;;
  logger Info "Incoming RPC request" [("method", LogJs method); ("id", LogJs id)] ;;;
  try_catch
    (try_body request method params id)
    (fun error =>
       logger Error "Error handling request"
         [("method", LogJs method); ("id", LogJs id); ("error", LogExn error)] ;;;
       ret (internal_error_envelope error id)).

(** *** The connection handler of [start] *)

Definition json_content_type : list (string * string) :=
  [("Content-Type", "application/json")].

(** The three [setHeader] calls of the CORS block. *)
Definition cors_headers (res : ServerResponse) : ServerResponse :=
  setHeader "Access-Control-Allow-Headers" "Content-Type"
    (setHeader "Access-Control-Allow-Methods" "POST, OPTIONS"
       (setHeader "Access-Control-Allow-Origin" "*" res)).

(** [body += chunk.toString()] for each chunk, on the decoded texts. *)
Definition read_body (chunks : list string) : string :=
  fold_left append chunks "".

(** The callback of [req.on('end', ...)]. *)
Definition on_end (body : string) (res : ServerResponse) : M ServerResponse :=
  try_catch
    (request <- lift (JSON_parse js body) ;;
     response <- handleRequest request ;;
     ret (end_ (Some (JSON_stringify js response)) (writeHead 200 json_content_type res)))
    (fun error =>
       logger Error "Error parsing request"
         [("body", LogText body); ("error", LogExn error)] ;;;
       ret (end_ (Some (JSON_stringify js parse_error_envelope))
                 (writeHead 400 json_content_type res))).

(** The callback of [createServer]. *)
Definition on_request (req : IncomingMessage) (res : ServerResponse) : M ServerResponse :=
  let res := if truthy (enableCors (config this)) then cors_headers res else res in
  if truthy (enableCors (config this)) && String.eqb (req_method req) "OPTIONS" then
    ret (end_ None (writeHead 200 [] res))
  else if negb (String.eqb (req_method req) "POST") then
    ret (end_ (Some (JSON_stringify js method_not_allowed_body))
              (writeHead 405 json_content_type res))
  else
    on_end (read_body (req_chunks req)) res.

End Proxy.

(** ** Vocabulary of the statements *)

(** The eight methods the dispatcher answers through the signing client. *)
Definition intercepted (method : jsval) : bool :=
  is_case method "eth_accounts"
  || is_case method "eth_sendTransaction"
  || is_case method "eth_signTransaction"
  || is_case method "eth_sign"
  || is_case method "personal_sign"
  || is_case method "eth_signTypedData"
  || is_case method "eth_signTypedData_v3"
  || is_case method "eth_signTypedData_v4".

(** Any value but [undefined]. *)
Definition defined (v : jsval) : bool :=
  match v with
  | JUndefined => false
  | _ => true
  end.

(** Exactly one of [result] and [error] is present. *)
Definition one_of_result_error (response : jsval) : bool :=
  xorb (present "result" response) (present "error" response).

(** The log entries of [handleRequest]. *)
Definition incoming_entry (request : jsval) : Event :=
  EvLog Info "Incoming RPC request"
    [("method", LogJs (prop request "method")); ("id", LogJs (prop request "id"))].

Definition failure_entry (request : jsval) (error : exn) : Event :=
  EvLog Error "Error handling request"
    [("method", LogJs (prop request "method")); ("id", LogJs (prop request "id"));
     ("error", LogExn error)].

(** The log entries of [forwardToUpstream]. *)
Definition forwarding_entry (request : jsval) : Event :=
  EvLog Debug "Forwarding request to upstream" [("method", LogJs (prop request "method"))].

Definition forward_failure_entry (error : exn) : Event :=
  EvLog Error "Error forwarding to upstream" [("error", LogExn error)].

(** What the upstream node answers to a call: the fetched body, read and
    parsed. *)
Definition upstream_answer {World} (js : Runtime World) (url : string)
  (init : RequestInit) (w : World) : Outcome jsval * World :=
  match fetch js url init w with
  | (Returned response, w') =>
      match resp_text response with
      | Returned text => (JSON_parse js text, w')
      | Threw e => (Threw e, w')
      end
  | (Threw e, w') => (Threw e, w')
  end.

(** The calls in a trace that leave the process: everything but the log. *)
Definition remote_calls (events : list Event) : list Event :=
  filter (fun e => negb (is_log e)) events.

Definition is_signer_call (e : Event) : bool :=
  match e with
  | EvGetAddress | EvSendTransaction _ | EvSignTransaction _
  | EvSignMessage _ | EvSignTypedData _ _ _ => true
  | _ => false
  end.

(** The methods whose case reads [params[0]]. *)
Definition reads_first_param (method : jsval) : bool :=
  is_case method "eth_sendTransaction"
  || is_case method "eth_signTransaction"
  || is_case method "eth_sign"
  || is_case method "personal_sign".

(** The three names of typed-data signing, whose case reads [params[1]]. *)
Definition is_typed_data (method : jsval) : bool :=
  is_case method "eth_signTypedData"
  || is_case method "eth_signTypedData_v3"
  || is_case method "eth_signTypedData_v4".

(** The log entry of the listener's [catch]. *)
Definition parse_failure_entry (body : string) (error : exn) : Event :=
  EvLog Error "Error parsing request" [("body", LogText body); ("error", LogExn error)].

(** ** Start-up: [loadConfig] and the logger of the constructor *)

(** [Bun.env]: the text a variable is set to, if it is set. *)
Definition Env : Type := string -> option string.

(** [v || fallback]: the fallback stands in for an unset variable and for an
    empty one. *)
Definition or_else (v : option string) (fallback : string) : string :=
  match v with
  | Some s => if String.eqb s "" then fallback else s
  | None => fallback
  end.

(** [v === 'true'] *)
Definition is_true_text (v : option string) : bool :=
  match v with
  | Some s => String.eqb s "true"
  | None => false
  end.

(** The value stored for [env.NAME!].  An unset variable is stored as the
    empty text: the two are told apart by nothing in [loadConfig], whose
    check [!field] rejects both. *)
Definition stored (v : option string) : string :=
  match v with
  | Some s => s
  | None => ""
  end.

(** [!field] on a stored text. *)
Definition not_given (field : string) : bool := String.eqb field "".

(** What [loadConfig] prints with [console.error] before it exits. *)
Inductive ConsoleLine : Type :=
| MissingHeader                       (* "Missing required configuration:" *)
| MissingVariable (name : string)     (* three spaces, then the name *)
| SecretsHint.                        (* the three closing lines of advice *)

(** How [loadConfig] ends: with the configuration, or in [process.exit]. *)
Inductive LoadResult : Type :=
| Loaded (config : ProxyConfig)
| Exited (status : nat) (printed : list ConsoleLine).

Section Startup.

(** [parseInt] on the text of the port, as far as it yields a port number. *)
Variable parseInt : string -> N.

(** The object literal of [loadConfig]. *)
Definition read_config (env : Env) : ProxyConfig :=
  {| port := parseInt (or_else (env "PROXY_PORT") "8545");
     upstreamRpcUrl := or_else (env "RPC_URL") "https://eth.llamarpc.com";
     turnkeyConfig :=
       {| baseUrl := or_else (env "TURNKEY_BASE_URL") "https://api.turnkey.com";
          organizationId := stored (env "TURNKEY_ORGANIZATION_ID");
          privateKeyId := stored (env "TURNKEY_PRIVATE_KEY_ID");
          apiPublicKey := stored (env "TURNKEY_API_PUBLIC_KEY");
          apiPrivateKey := stored (env "TURNKEY_API_PRIVATE_KEY") |};
     enableLogging := Some (is_true_text (env "ENABLE_LOGGING"));
     enableCors := Some (is_true_text (env "ENABLE_CORS")) |}.

(** [if (!field) missing.push(name)] *)
Definition push_if_missing (field name : string) (missing : list string) : list string :=
  if not_given field then (missing ++ [name])%list else missing.

(** The four checks of the validation, in their order. *)
Definition missing_names (config : ProxyConfig) : list string :=
  let tk := turnkeyConfig config in
  push_if_missing (apiPrivateKey tk) "TURNKEY_API_PRIVATE_KEY"
    (push_if_missing (apiPublicKey tk) "TURNKEY_API_PUBLIC_KEY"
       (push_if_missing (privateKeyId tk) "TURNKEY_PRIVATE_KEY_ID"
          (push_if_missing (organizationId tk) "TURNKEY_ORGANIZATION_ID" []))).

Definition loadConfig (env : Env) : LoadResult :=
  let config := read_config env in
  let missing := missing_names config in
  if (0 <? length missing)%nat then
    Exited 1 (MissingHeader :: map MissingVariable missing ++ [SecretsHint])%list
  else
    Loaded config.

End Startup.

(** The level the constructor gives the logger:
    [config.enableLogging ? 'info' : 'error']. *)
Definition logger_level (config : ProxyConfig) : LogLevel :=
  if truthy (enableLogging config) then Info else Error.

(** The rank of a level in the logging library (its npm levels: error 0,
    info 2, debug 5); a logger writes the entries ranked at or below its own
    level. *)
Definition rank (level : LogLevel) : nat :=
  match level with
  | Error => 0
  | Info => 2
  | Debug => 5
  end.

Definition written (threshold : LogLevel) (e : Event) : bool :=
  match e with
  | EvLog level _ _ => (rank level <=? rank threshold)%nat
  | _ => false
  end.

(** What reaches the console and the log file out of a trace. *)
Definition log_output (config : ProxyConfig) (events : list Event) : list Event :=
  filter (written (logger_level config)) events.

(** The four variables [loadConfig] requires, in the order it checks them. *)
Definition required_names : list string :=
  ["TURNKEY_ORGANIZATION_ID"; "TURNKEY_PRIVATE_KEY_ID"; "TURNKEY_API_PUBLIC_KEY";
   "TURNKEY_API_PRIVATE_KEY"].

(** The nine variables [loadConfig] reads. *)
Definition read_names : list string :=
  ["PROXY_PORT"; "RPC_URL"; "TURNKEY_BASE_URL"; "TURNKEY_ORGANIZATION_ID";
   "TURNKEY_PRIVATE_KEY_ID"; "TURNKEY_API_PUBLIC_KEY"; "TURNKEY_API_PRIVATE_KEY";
   "ENABLE_LOGGING"; "ENABLE_CORS"].

(** A variable is given when it is set to a text that is not empty. *)
Definition given (v : option string) : bool :=
  match v with
  | Some s => negb (String.eqb s "")
  | None => false
  end.

(** ** Stand-ins for the collaborators *)

Module Doubles.

(** The world of the examples: the transactions submitted so far. *)
Record World : Type := {
  submitted : list jsval
}.

Definition empty_world : World := {| submitted := [] |}.

Definition address : string := "0x00000000000000000000000000000000000000aa".

(** A signer that holds one key and accepts everything. *)
Definition signer : Signer World := {|
  getAddress := fun w => (Returned address, w);
  sendTransaction := fun tx w =>
    (Returned {| hash := "0xfeed" |}, {| submitted := submitted w ++ [tx] |});
  signTransaction := fun _ w => (Returned "0x02f8", w);
  signMessage := fun _ w => (Returned "0x5163", w);
  signTypedData := fun _ _ _ w => (Returned "0x712d", w)
|}.

Definition policy_rejection : exn := ErrorObject "Error" "policy rejection".

(** A signer whose policy engine rejects every transaction. *)
Definition rejecting_signer : Signer World := {|
  getAddress := fun w => (Returned address, w);
  sendTransaction := fun _ w => (Threw policy_rejection, w);
  signTransaction := fun _ w => (Threw policy_rejection, w);
  signMessage := fun _ w => (Returned "0x5163", w);
  signTypedData := fun _ _ _ w => (Returned "0x712d", w)
|}.

(** [JSON.parse] on the few texts the examples use; any other text is
    treated as malformed. *)
Definition parse (text : string) : Outcome jsval :=
  if String.eqb text "{}" then Returned (JObj [])
  else if String.eqb text "null" then Returned JNull
  else if String.eqb text "[]" then Returned (JArr [])
  else Threw (ErrorObject "SyntaxError" "JSON Parse error").

(** [String(v)] where it needs no number formatting; the examples convert
    nothing else. *)
Definition to_string (v : jsval) : string :=
  match v with
  | JUndefined => "undefined"
  | JNull => "null"
  | JBool true => "true"
  | JBool false => "false"
  | JStr s => s
  | JObj _ => "[object Object]"
  | JArr [] => ""
  | _ => "?"
  end.

(** [JSON.stringify], as an opaque text: no stand-in reads it. *)
Definition stringify (v : jsval) : string :=
  match v with
  | JNull => "null"
  | JArr [] => "[]"
  | JObj [] => "{}"
  | _ => "(json)"
  end.

(** An upstream node that answers every call with the empty object. *)
Definition empty_object_upstream (url : string) (init : RequestInit) (w : World)
  : Outcome Response * World :=
  (Returned {| resp_status := 200; resp_text := Returned "{}" |}, w).

(** An upstream node that cannot be reached. *)
Definition unreachable_upstream (url : string) (init : RequestInit) (w : World)
  : Outcome Response * World :=
  (Threw (ErrorObject "TypeError" "fetch failed"), w).

(** [s[i]] on a text of ASCII characters, where code units are bytes. *)
Definition ascii_at (s : string) (i : nat) : jsval :=
  match String.get i s with
  | Some c => JStr (String c EmptyString)
  | None => JUndefined
  end.

Definition runtime (net : string -> RequestInit -> World -> Outcome Response * World)
  : Runtime World := {|
  JSON_parse := parse;
  JSON_stringify := stringify;
  ToString := to_string;
  type_error_message := fun v k => "cannot read " ++ k ++ " of " ++ to_string v;
  string_at := ascii_at;
  fetch := net
|}.

Definition turnkey : TurnkeyConfig := {|
  baseUrl := "https://api.turnkey.com";
  organizationId := "org";
  privateKeyId := "key";
  apiPublicKey := "pub";
  apiPrivateKey := "priv"
|}.

Definition settings (cors : bool) : ProxyConfig := {|
  port := 8545%N;
  upstreamRpcUrl := "https://eth.llamarpc.com";
  turnkeyConfig := turnkey;
  enableLogging := Some true;
  enableCors := Some cors
|}.

Definition proxy (cors : bool) (s : Signer World) : TurnkeyRpcProxy World :=
  {| config := settings cors; turnkeySigner := s |}.

Definition start_state : State World := {| world := empty_world; trace := [] |}.

(** [{"jsonrpc":"2.0","method":m,"params":params,"id":id}] *)
Definition call (m : string) (params : list jsval) (id : jsval) : jsval :=
  JObj [("jsonrpc", JStr "2.0"); ("method", JStr m); ("params", JArr params); ("id", id)].

Definition get_balance : jsval :=
  call "eth_getBalance" [JStr "0x00000000000000000000000000000000000000aa"; JStr "latest"] (JNum 1%float).

Definition send_transaction : jsval :=
  call "eth_sendTransaction" [JObj [("to", JStr "0x00000000000000000000000000000000000000bb"); ("value", JStr "0x1")]] (JNum 2%float).

Definition accounts (id : jsval) : jsval := call "eth_accounts" [] id.

(** The runtime in front of a node that answers [{}], and in front of one
    that is down. *)
Definition js_empty : Runtime World := runtime empty_object_upstream.
Definition js_down : Runtime World := runtime unreachable_upstream.

(** The state in which the rejected [eth_sendTransaction] leaves the [try]
    block: the request logged, the signer called, nothing submitted. *)
Definition after_rejection : State World :=
  {| world := empty_world;
     trace := [incoming_entry send_transaction;
               EvSendTransaction (JObj [("to", JStr "0x00000000000000000000000000000000000000bb");
                                        ("value", JStr "0x1")])] |}.

(** A POST whose body arrives in two chunks and is no JSON text. *)
Definition broken_post : IncomingMessage :=
  {| req_method := "POST"; req_chunks := ["{oo"; "ps"] |}.

Definition preflight : IncomingMessage := {| req_method := "OPTIONS"; req_chunks := [] |}.

(** The state after the accepted [eth_sendTransaction]. *)
Definition after_sending : State World :=
  snd (handleRequest js_empty (proxy false signer) send_transaction start_state).

(** More requests. *)
Definition transfer : jsval :=
  JObj [("to", JStr "0x00000000000000000000000000000000000000bb"); ("value", JStr "0x1")].

Definition sign_transaction : jsval :=
  call "eth_signTransaction" [transfer] (JNum 3%float).

Definition personal_sign : jsval :=
  call "personal_sign" [JStr "0x68656c6c6f"; JStr address] (JStr "a1").

(** Typed data given as the JSON text of the empty object. *)
Definition sign_typed_data : jsval :=
  call "eth_signTypedData_v4" [JStr address; JStr "{}"] (JNum 4%float).

(** Typed data given as a text that is no JSON. *)
Definition sign_broken_typed_data : jsval :=
  call "eth_signTypedData_v4" [JStr address; JStr "{oops"] (JNum 5%float).

(** A signing request that carries no [params] at all. *)
Definition sign_without_params : jsval :=
  JObj [("jsonrpc", JStr "2.0"); ("method", JStr "eth_signTransaction"); ("id", JNum 6%float)].

(** A label of the [switch] in capitals. *)
Definition shouted_accounts : jsval := call "ETH_ACCOUNTS" [] (JNum 7%float).

Definition fetch_failed : exn := ErrorObject "TypeError" "fetch failed".

(** A POST whose body is the JSON text [null], in two chunks; one whose
    body is the empty object; and a GET. *)
Definition null_post : IncomingMessage :=
  {| req_method := "POST"; req_chunks := ["nu"; "ll"] |}.

Definition empty_object_post : IncomingMessage :=
  {| req_method := "POST"; req_chunks := ["{}"] |}.

Definition get : IncomingMessage := {| req_method := "GET"; req_chunks := ["{}"] |}.

(** [parseInt] on a text of decimal digits. *)
Definition parse_port (text : string) : N :=
  match NilEmpty.uint_of_string text with
  | Some digits => N.of_uint digits
  | None => 0%N
  end.

(** An environment with the four required variables, CORS asked for in
    capitals, and the upstream given under a name [loadConfig] does not
    read. *)
Definition environment : Env := fun name =>
  if String.eqb name "TURNKEY_ORGANIZATION_ID" then Some "org"
  else if String.eqb name "TURNKEY_PRIVATE_KEY_ID" then Some "key"
  else if String.eqb name "TURNKEY_API_PUBLIC_KEY" then Some "pub"
  else if String.eqb name "TURNKEY_API_PRIVATE_KEY" then Some "priv"
  else if String.eqb name "ENABLE_CORS" then Some "TRUE"
  else if String.eqb name "UPSTREAM_RPC_URL" then Some "http://localhost:8546"
  else None.

(** The same without [UPSTREAM_RPC_URL]. *)
Definition plain_environment : Env := fun name =>
  if String.eqb name "UPSTREAM_RPC_URL" then None else environment name.

(** The same with the key id unset and the API private key empty. *)
Definition incomplete_environment : Env := fun name =>
  if String.eqb name "TURNKEY_PRIVATE_KEY_ID" then None
  else if String.eqb name "TURNKEY_API_PRIVATE_KEY" then Some ""
  else environment name.

(** The proxy built on what [loadConfig] returns for [environment]. *)
Definition loaded_proxy : TurnkeyRpcProxy World :=
  {| config := read_config parse_port environment; turnkeySigner := signer |}.

(** [JSON.parse] that also knows the empty object written with a space. *)
Definition parse_spaced (text : string) : Outcome jsval :=
  if String.eqb text "{ }" then Returned (JObj []) else parse text.

(** The runtime in front of the node that answers [{}], with that parser. *)
Definition js_spaced : Runtime World := {|
  JSON_parse := parse_spaced;
  JSON_stringify := stringify;
  ToString := to_string;
  type_error_message := type_error_message js_empty;
  string_at := ascii_at;
  fetch := empty_object_upstream
|}.

(** A POST whose body is the empty object written with a space. *)
Definition spaced_post : IncomingMessage :=
  {| req_method := "POST"; req_chunks := ["{ }"] |}.

End Doubles.

(** ** The dispatcher *)

Unset Implicit Arguments.

(** Case analysis on the next scrutinee of a run. *)
Ltac step_in H :=
  match type of H with
  | context [match ?x with _ => _ end] => destruct x eqn:?
  end.

(** One case of the [switch] that ends in [break]. *)
Ltac break_case :=
  let Hrun := fresh "Hrun" in
  cbn [orb]; intros Hrun;
  unfold bind, lift, remote, logger, emit, ret in Hrun;
  repeat step_in Hrun; try discriminate Hrun;
  injection Hrun as <- _; eexists; split; reflexivity.

Section Dispatcher.

Variable World : Type.
Variable js : Runtime World.
Variable this : TurnkeyRpcProxy World.

Lemma get_field_defined (v : jsval) (k : string) :
  nullish v = false -> get_field js v k = Returned (prop v k).
Proof.
  intros Hv. unfold get_field. now rewrite Hv.
Qed.

Lemma get_field_nullish (v : jsval) (k : string) :
  nullish v = true -> get_field js v k = Threw (type_error js v k).
Proof.
  intros Hv. unfold get_field. now rewrite Hv.
Qed.

(** [handleRequest] on a request that can be destructured: the three
    properties are read, the request is logged, and the outcome of the [try]
    block decides between its own value and the internal-error envelope. *)
Lemma handleRequest_run (request : jsval) (st : State World) :
  nullish request = false ->
  handleRequest js this request st =
    match try_body js this request (prop request "method") (prop request "params")
            (prop request "id") (record (incoming_entry request) st) with
    | (Returned response, st') => (Returned response, st')
    | (Threw error, st') =>
        (Returned (internal_error_envelope js error (prop request "id")),
         record (failure_entry request error) st')
    end.
Proof.
  intros Hreq.
  unfold handleRequest, bind, lift, try_catch, logger, emit, ret.
  rewrite !(get_field_defined request _ Hreq).
  fold (incoming_entry request).
  destruct (try_body _ _ _ _ _ _ _) as [[response | error] st']; reflexivity.
Qed.

(** The destructuring in the first line of [handleRequest] is outside its
    [try]: on [null] the method itself throws. *)
Lemma handleRequest_null (st : State World) :
  handleRequest js this JNull st = (Threw (type_error js JNull "method"), st).
Proof. reflexivity. Qed.

Lemma internal_error_has_error (error : exn) (id : jsval) :
  present "error" (internal_error_envelope js error id) = true
  /\ present "result" (internal_error_envelope js error id) = false.
Proof. split; reflexivity. Qed.

(** C1.  On every request that can be destructured (every value but [null]
    and [undefined], so every RPC request object), [handleRequest] returns a
    response and does not throw; when anything inside its [try] block throws
    (a property read on the parameters, the signer, the upstream call), the
    response it returns has its [error] field set. *)
Theorem handleRequest_never_throws (request : jsval) (st : State World) :
  nullish request = false ->
  exists response st',
    handleRequest js this request st = (Returned response, st')
    /\ (forall error st1,
          try_body js this request (prop request "method") (prop request "params")
            (prop request "id") (record (incoming_entry request) st) = (Threw error, st1) ->
          present "error" response = true).
Proof.
  intros Hreq. rewrite (handleRequest_run request st Hreq).
  destruct (try_body _ _ _ _ _ _ _) as [[response | error] st1].
  - exists response, st1. split; [reflexivity | intros e s H; discriminate H].
  - eexists _, _. split; [reflexivity | intros _ _ _; reflexivity].
Qed.

(** C5.  When anything inside the [try] block of [handleRequest] throws, the
    dispatcher returns code -32603, message "Internal error", the error's
    message (or its string conversion) as [data], and the id of the request;
    the listener writes that response with status 200. *)
Theorem internal_error_response (request : jsval) (st st1 : State World) (error : exn) :
  nullish request = false ->
  try_body js this request (prop request "method") (prop request "params")
    (prop request "id") (record (incoming_entry request) st) = (Threw error, st1) ->
  let response :=
    JObj [("jsonrpc", JStr "2.0");
          ("error", JObj [("code", JNum (-32603)%float);
                          ("message", JStr "Internal error");
                          ("data", JStr (match error with
                                         | ErrorObject _ message => message
                                         | ThrownValue v => ToString js v
                                         end))]);
          ("id", prop request "id")] in
  handleRequest js this request st
    = (Returned response, record (failure_entry request error) st1)
  /\ prop response "id" = prop request "id"
  /\ forall (req : IncomingMessage) (res : ServerResponse),
       req_method req = "POST" ->
       JSON_parse js (read_body (req_chunks req)) = Returned request ->
       exists res',
         on_request js this req res st
           = (Returned res', record (failure_entry request error) st1)
         /\ statusCode res' = Some 200
         /\ payload res' = Some (JSON_stringify js response).
Proof.
  intros Hreq Hbody response.
  assert (Hrun : handleRequest js this request st
                 = (Returned response, record (failure_entry request error) st1)).
  { rewrite (handleRequest_run request st Hreq), Hbody. reflexivity. }
  split; [exact Hrun | split; [reflexivity |]].
  intros req res Hpost Hparse.
  unfold on_request. rewrite Hpost.
  replace (truthy (enableCors (config this)) && String.eqb "POST" "OPTIONS") with false
    by (now rewrite andb_false_r).
  change (negb (String.eqb "POST" "POST")) with false. cbv iota.
  unfold on_end, try_catch, bind, lift, ret.
  rewrite Hparse, Hrun.
  eexists. split; [reflexivity | split; reflexivity].
Qed.

(** *** Forwarding *)

Lemma snoc2 {A} (l : list A) (a b : A) : ((l ++ [a]) ++ [b] = l ++ [a; b])%list.
Proof. now rewrite <- app_assoc. Qed.

Lemma snoc3 {A} (l : list A) (a b c : A) :
  (((l ++ [a]) ++ [b]) ++ [c] = l ++ [a; b; c])%list.
Proof. now rewrite <- !app_assoc. Qed.

(** [forwardToUpstream] on a request that can be read: one log entry, one
    [fetch], the body read and parsed; a failure is logged and thrown again. *)
Lemma forwardToUpstream_run (request : jsval) (st : State World) :
  nullish request = false ->
  forwardToUpstream js this request st =
    let url := upstreamRpcUrl (config this) in
    let init := upstream_init js request in
    match upstream_answer js url init (world st) with
    | (Returned v, w') =>
        (Returned v,
         {| world := w'; trace := trace st ++ [forwarding_entry request; EvFetch url init] |})
    | (Threw e, w') =>
        (Threw e,
         {| world := w';
            trace := trace st ++ [forwarding_entry request; EvFetch url init;
                                  forward_failure_entry e] |})
    end.
Proof.
  intros Hreq.
  unfold forwardToUpstream, upstream_answer, json, bind, lift, try_catch, logger,
    emit, remote, record, throw.
  rewrite (get_field_defined request _ Hreq). cbn [world trace].
  destruct (fetch js _ _ (world st)) as [[response | e] w'].
  - destruct (resp_text response) as [text | e].
    + destruct (JSON_parse js text) as [v | e]; cbn [world trace];
        rewrite ?snoc3, ?snoc2; reflexivity.
    + cbn [world trace]. rewrite snoc3. reflexivity.
  - cbn [world trace]. rewrite snoc3. reflexivity.
Qed.

Lemma not_intercepted (method : jsval) :
  intercepted method = false ->
  is_case method "eth_accounts" = false
  /\ is_case method "eth_sendTransaction" = false
  /\ is_case method "eth_signTransaction" = false
  /\ (is_case method "eth_sign" || is_case method "personal_sign") = false
  /\ (is_case method "eth_signTypedData" || is_case method "eth_signTypedData_v3"
      || is_case method "eth_signTypedData_v4") = false.
Proof.
  unfold intercepted. intros H.
  repeat (apply orb_false_elim in H; destruct H as [H ?]).
  repeat split; try assumption.
  - apply orb_false_intro; assumption.
  - repeat apply orb_false_intro; assumption.
Qed.

(** A method outside the eight reaches the default case of the [switch]. *)
Lemma switch_method_default (request method params : jsval) (st : State World) :
  intercepted method = false ->
  switch_method js this request method params st =
    match forwardToUpstream js this request st with
    | (Returned response, st') => (Returned (Return response), st')
    | (Threw e, st') => (Threw e, st')
    end.
Proof.
  intros H. apply not_intercepted in H as (H1 & H2 & H3 & H4 & H5).
  unfold switch_method. rewrite H1, H2, H3, H4, H5.
  unfold bind, ret. destruct (forwardToUpstream _ _ _ _) as [[r | e] st']; reflexivity.
Qed.

(** A failed upstream call leaves the [try] block of [handleRequest] as a
    throw of the same error. *)
Lemma forward_failure_throws (request : jsval) (st : State World) (e : exn) (w' : World) :
  nullish request = false ->
  intercepted (prop request "method") = false ->
  upstream_answer js (upstreamRpcUrl (config this)) (upstream_init js request) (world st)
    = (Threw e, w') ->
  fst (try_body js this request (prop request "method") (prop request "params")
         (prop request "id") st) = Threw e.
Proof.
  intros Hreq Hm Hup. unfold try_body, bind.
  rewrite (switch_method_default request _ _ _ Hm).
  rewrite (forwardToUpstream_run request _ Hreq). cbv zeta. rewrite Hup. reflexivity.
Qed.

(** C6, as amended.  [forwardToUpstream] makes exactly one call that leaves
    the process, and no other: a POST to the configured upstream URL whose
    body is [JSON.stringify] of the parsed request it was given, nothing
    added and nothing removed (the serialisation of the request, not the
    text the client sent); and what it returns is the parsed JSON body of
    the upstream's answer, as it is. *)
Theorem forwardToUpstream_single_call (request : jsval) (st : State World) :
  nullish request = false ->
  (exists added,
     trace (snd (forwardToUpstream js this request st)) = (trace st ++ added)%list
     /\ remote_calls added =
          [EvFetch (upstreamRpcUrl (config this))
             {| init_method := "POST";
                init_headers := [("Content-Type", "application/json")];
                init_body := JSON_stringify js request |}])
  /\ (forall response w' text v,
        fetch js (upstreamRpcUrl (config this)) (upstream_init js request) (world st)
          = (Returned response, w') ->
        resp_text response = Returned text ->
        JSON_parse js text = Returned v ->
        fst (forwardToUpstream js this request st) = Returned v).
Proof.
  intros Hreq. rewrite (forwardToUpstream_run request st Hreq). cbv zeta. split.
  - destruct (upstream_answer _ _ _ _) as [[v | e] w'];
      eexists; (split; [reflexivity | reflexivity]).
  - intros response w' text v Hfetch Htext Hparse.
    unfold upstream_answer. rewrite Hfetch, Htext, Hparse. reflexivity.
Qed.

(** C2.  A request whose method is none of the eight intercepted ones is
    answered with what the upstream node answered to that request: the parsed
    body of the upstream's response, unchanged. *)
Theorem passthrough_identity (request : jsval) (st : State World)
  (response : Response) (w' : World) (text : string) (v : jsval) :
  nullish request = false ->
  intercepted (prop request "method") = false ->
  fetch js (upstreamRpcUrl (config this)) (upstream_init js request) (world st)
    = (Returned response, w') ->
  resp_text response = Returned text ->
  JSON_parse js text = Returned v ->
  fst (handleRequest js this request st) = Returned v.
Proof.
  intros Hreq Hmethod Hfetch Htext Hparse.
  rewrite (handleRequest_run request st Hreq).
  unfold try_body, bind.
  rewrite (switch_method_default request _ _ _ Hmethod).
  rewrite (forwardToUpstream_run request _ Hreq). cbv zeta.
  unfold upstream_answer. cbn [world record].
  rewrite Hfetch, Htext, Hparse. reflexivity.
Qed.

(** *** The intercepted methods *)

(** Each of the eight cases leaves the [switch] by [break], with a string or
    an array assigned to [result]. *)
Lemma switch_method_intercepted (request method params : jsval)
  (st st' : State World) (c : Completion) :
  intercepted method = true ->
  switch_method js this request method params st = (Returned c, st') ->
  exists result, c = Break result /\ defined result = true.
Proof.
  intros Hm. unfold switch_method.
  destruct (is_case method "eth_accounts") eqn:E1; [break_case |].
  destruct (is_case method "eth_sendTransaction") eqn:E2; [break_case |].
  destruct (is_case method "eth_signTransaction") eqn:E3; [break_case |].
  destruct (is_case method "eth_sign") eqn:E4; [break_case |].
  destruct (is_case method "personal_sign") eqn:E5; [break_case |].
  destruct (is_case method "eth_signTypedData") eqn:E6; [break_case |].
  destruct (is_case method "eth_signTypedData_v3") eqn:E7; [break_case |].
  destruct (is_case method "eth_signTypedData_v4") eqn:E8; [break_case |].
  unfold intercepted in Hm. rewrite E1, E2, E3, E4, E5, E6, E7, E8 in Hm.
  discriminate Hm.
Qed.

(** The [eth_accounts] case: one call of the signer's [getAddress]. *)
Lemma switch_method_accounts (request method params : jsval) (st : State World) :
  is_case method "eth_accounts" = true ->
  switch_method js this request method params st =
    match getAddress (turnkeySigner this) (world st) with
    | (Returned addr, w') =>
        (Returned (Break (JArr [JStr addr])),
         {| world := w'; trace := trace st ++ [EvGetAddress] |})
    | (Threw e, w') => (Threw e, {| world := w'; trace := trace st ++ [EvGetAddress] |})
    end.
Proof.
  intros H. unfold switch_method. rewrite H. unfold bind, remote, ret.
  destruct (getAddress _ _) as [[addr | e] w']; reflexivity.
Qed.

(** What [handleRequest] answers by itself is one of its two envelopes. *)
Lemma handleRequest_own_envelope (request response : jsval) (st st' : State World) :
  nullish request = false ->
  handleRequest js this request st = (Returned response, st') ->
  intercepted (prop request "method") = true
  \/ (exists error st1,
        try_body js this request (prop request "method") (prop request "params")
          (prop request "id") (record (incoming_entry request) st) = (Threw error, st1)) ->
  (exists result, defined result = true
                  /\ response = result_envelope result (prop request "id"))
  \/ (exists error, response = internal_error_envelope js error (prop request "id")).
Proof.
  intros Hreq Hrun Hown. rewrite (handleRequest_run request st Hreq) in Hrun.
  destruct (try_body _ _ _ _ _ _ _) as [[r | e] st1] eqn:Hbody.
  - destruct Hown as [Hm | (error & st2 & Habs)]; [| discriminate Habs].
    left. injection Hrun as <- <-.
    unfold try_body, bind in Hbody.
    destruct (switch_method _ _ _ _ _ _) as [[c | e] st2] eqn:Hswitch; [| discriminate Hbody].
    destruct (switch_method_intercepted _ _ _ _ _ _ Hm Hswitch) as (result & -> & Hdef).
    injection Hbody as <- _. exists result. split; [exact Hdef | reflexivity].
  - right. injection Hrun as <- _. exists e. reflexivity.
Qed.

Lemma handleRequest_accounts (request : jsval) (st : State World) (addr : string) (w' : World) :
  nullish request = false ->
  prop request "method" = JStr "eth_accounts" ->
  getAddress (turnkeySigner this) (world st) = (Returned addr, w') ->
  handleRequest js this request st =
    (Returned (result_envelope (JArr [JStr addr]) (prop request "id")),
     {| world := w'; trace := trace st ++ [incoming_entry request; EvGetAddress] |}).
Proof.
  intros Hreq Hm Haddr. rewrite (handleRequest_run request st Hreq).
  unfold try_body, bind. rewrite switch_method_accounts by (now rewrite Hm).
  cbn [world trace record]. rewrite Haddr, snoc2. reflexivity.
Qed.

(** C7.  A successful [eth_accounts] response carries as [result] the
    one-element array holding the address the signing client gave, and the
    only call made is that [getAddress].  When [getAddress] is a query that
    leaves the signing service as it found it, a second [eth_accounts]
    request gets the same address, and the two requests leave the world
    unchanged. *)
Theorem eth_accounts_same_address (request again : jsval) (st : State World) (addr : string) :
  nullish request = false ->
  prop request "method" = JStr "eth_accounts" ->
  nullish again = false ->
  prop again "method" = JStr "eth_accounts" ->
  (forall w',
     getAddress (turnkeySigner this) (world st) = (Returned addr, w') ->
     handleRequest js this request st =
       (Returned (JObj [("jsonrpc", JStr "2.0"); ("result", JArr [JStr addr]);
                        ("id", prop request "id")]),
        {| world := w'; trace := trace st ++ [incoming_entry request; EvGetAddress] |}))
  /\ (getAddress (turnkeySigner this) (world st) = (Returned addr, world st) ->
      exists first second st1 st2,
        handleRequest js this request st = (Returned first, st1)
        /\ handleRequest js this again st1 = (Returned second, st2)
        /\ prop first "result" = JArr [JStr addr]
        /\ prop second "result" = JArr [JStr addr]
        /\ world st2 = world st
        /\ filter (fun e => negb (is_log e)) (trace st2)
           = (filter (fun e => negb (is_log e)) (trace st) ++ [EvGetAddress; EvGetAddress])%list).
Proof.
  intros Hreq Hm Hagain Hm'. split.
  - intros w' Haddr. exact (handleRequest_accounts request st addr w' Hreq Hm Haddr).
  - intros Haddr.
    pose proof (handleRequest_accounts request st addr _ Hreq Hm Haddr) as H1.
    set (st1 := {| world := world st;
                   trace := trace st ++ [incoming_entry request; EvGetAddress] |}) in *.
    assert (Haddr1 : getAddress (turnkeySigner this) (world st1) = (Returned addr, world st1))
      by exact Haddr.
    pose proof (handleRequest_accounts again st1 addr _ Hagain Hm' Haddr1) as H2.
    eexists _, _, _, _. split; [exact H1 |]. split; [exact H2 |].
    repeat split.
    cbn [trace st1]. rewrite !filter_app. cbn [filter is_log negb incoming_entry].
    rewrite <- app_assoc. reflexivity.
Qed.

End Dispatcher.

(** ** The listener *)

Section Listener.

Variable World : Type.
Variable js : Runtime World.
Variable this : TurnkeyRpcProxy World.

Lemma same_header_refl (a : string) : same_header a a = true.
Proof. apply String.eqb_refl. Qed.

Lemma same_header_trans_false (a b c : string) :
  same_header a b = false -> same_header b c = true -> same_header a c = false.
Proof.
  unfold same_header. intros Hab Hbc.
  apply String.eqb_eq in Hbc. now rewrite <- Hbc.
Qed.

Lemma header_put_same (name value : string) (hs : list (string * string)) :
  header name (put_header name value hs) = Some value.
Proof.
  induction hs as [| [n v] rest IH]; cbn [put_header header].
  - now rewrite same_header_refl.
  - destruct (same_header name n) eqn:E; cbn [header].
    + now rewrite same_header_refl.
    + now rewrite E.
Qed.

Lemma header_put_other (name other value : string) (hs : list (string * string)) :
  same_header name other = false ->
  header name (put_header other value hs) = header name hs.
Proof.
  intros Hneq. induction hs as [| [n v] rest IH]; cbn [put_header header].
  - now rewrite Hneq.
  - destruct (same_header other n) eqn:E; cbn [header].
    + rewrite Hneq. now rewrite (same_header_trans_false _ _ _ Hneq E).
    + now rewrite IH.
Qed.

(** The connection handler always completes: it returns the response it has
    written. *)
Lemma on_request_returns (req : IncomingMessage) (res : ServerResponse) (st : State World) :
  exists res' st', on_request js this req res st = (Returned res', st').
Proof.
  unfold on_request.
  destruct (truthy (enableCors (config this)) && _); [eexists _, _; reflexivity |].
  destruct (negb _); [eexists _, _; reflexivity |].
  unfold on_end, try_catch, bind, lift, logger, emit, ret.
  destruct (JSON_parse js _) as [request | e]; [| eexists _, _; reflexivity].
  destruct (handleRequest js this request st) as [[response | e] st'];
    eexists _, _; reflexivity.
Qed.

Lemma post_is_handled (req : IncomingMessage) (res : ServerResponse) (st : State World) :
  req_method req = "POST" ->
  on_request js this req res st =
    on_end js this (read_body (req_chunks req))
      (if truthy (enableCors (config this)) then cors_headers res else res) st.
Proof.
  intros Hpost. unfold on_request. rewrite Hpost.
  replace (truthy (enableCors (config this)) && String.eqb "POST" "OPTIONS") with false
    by (now rewrite andb_false_r).
  reflexivity.
Qed.

Lemma on_end_parse_error (body : string) (res : ServerResponse) (st : State World) (e : exn) :
  JSON_parse js body = Threw e ->
  on_end js this body res st =
    (Returned (end_ (Some (JSON_stringify js parse_error_envelope))
                    (writeHead 400 json_content_type res)),
     record (EvLog Error "Error parsing request"
               [("body", LogText body); ("error", LogExn e)]) st).
Proof.
  intros Hparse. unfold on_end, try_catch, bind, lift, logger, emit, ret.
  rewrite Hparse. reflexivity.
Qed.

(** C8.  A POST whose body [JSON.parse] rejects is answered with status 400
    and the envelope with code -32700, message "Parse error" and a null id. *)
Theorem parse_error_reply (req : IncomingMessage) (res : ServerResponse)
  (st : State World) (e : exn) :
  req_method req = "POST" ->
  JSON_parse js (read_body (req_chunks req)) = Threw e ->
  exists res' st',
    on_request js this req res st = (Returned res', st')
    /\ statusCode res' = Some 400
    /\ payload res' =
         Some (JSON_stringify js
                 (JObj [("jsonrpc", JStr "2.0");
                        ("error", JObj [("code", JNum (-32700)%float);
                                        ("message", JStr "Parse error")]);
                        ("id", JNull)])).
Proof.
  intros Hpost Hparse.
  rewrite (post_is_handled req res st Hpost), (on_end_parse_error _ _ st e Hparse).
  eexists _, _. split; [reflexivity | split; reflexivity].
Qed.

(** C9.  With CORS disabled an OPTIONS request gets no 200: it is answered
    like every request that is not a POST, with status 405 and the body
    [{"error": "Method not allowed"}]. *)
Theorem options_without_cors (req : IncomingMessage) (res : ServerResponse)
  (st : State World) :
  truthy (enableCors (config this)) = false ->
  req_method req = "OPTIONS" ->
  on_request js this req res st =
    (Returned {| headers := put_header "Content-Type" "application/json" (headers res);
                 statusCode := Some 405;
                 payload := Some (JSON_stringify js (JObj [("error", JStr "Method not allowed")]));
                 finished := true |},
     st)
  /\ forall other : IncomingMessage,
       req_method other <> "POST" ->
       on_request js this other res st = on_request js this req res st.
Proof.
  intros Hcors Hoptions. split.
  - unfold on_request. rewrite Hcors, Hoptions. reflexivity.
  - intros other Hother. unfold on_request. rewrite Hcors, Hoptions.
    cbn [andb]. apply String.eqb_neq in Hother. rewrite Hother. reflexivity.
Qed.

Lemma cors_headers_set (res : ServerResponse) :
  header "Access-Control-Allow-Origin" (headers (cors_headers res)) = Some "*"
  /\ header "Access-Control-Allow-Methods" (headers (cors_headers res)) = Some "POST, OPTIONS"
  /\ header "Access-Control-Allow-Headers" (headers (cors_headers res)) = Some "Content-Type".
Proof.
  unfold cors_headers, setHeader. cbn [headers]. repeat split.
  - rewrite !header_put_other by reflexivity. apply header_put_same.
  - rewrite header_put_other by reflexivity. apply header_put_same.
  - apply header_put_same.
Qed.

(** [writeHead] with no header, or with the JSON content type, keeps the
    three CORS headers. *)
Lemma writeHead_keeps_cors (status : nat) (hs : list (string * string)) (res : ServerResponse)
  (name : string) :
  hs = [] \/ hs = json_content_type ->
  same_header name "Content-Type" = false ->
  header name (headers (writeHead status hs res)) = header name (headers res).
Proof.
  intros [-> | ->] Hname; cbn [writeHead headers fold_left json_content_type fst snd].
  - reflexivity.
  - now apply header_put_other.
Qed.

(** C10.  With CORS enabled, whatever the request, the response the listener
    writes carries the three CORS headers: the preflight answer, the 405, the
    parse-error 400 and the answer to a POST alike. *)
Theorem cors_headers_on_every_response (req : IncomingMessage) (res : ServerResponse)
  (st : State World) :
  truthy (enableCors (config this)) = true ->
  exists res' st',
    on_request js this req res st = (Returned res', st')
    /\ header "Access-Control-Allow-Origin" (headers res') = Some "*"
    /\ header "Access-Control-Allow-Methods" (headers res') = Some "POST, OPTIONS"
    /\ header "Access-Control-Allow-Headers" (headers res') = Some "Content-Type".
Proof.
  intros Hcors.
  destruct (cors_headers_set res) as (Ho & Hm & Hh).
  assert (Hkeep : forall status hs data,
             hs = [] \/ hs = json_content_type ->
             let res' := end_ data (writeHead status hs (cors_headers res)) in
             header "Access-Control-Allow-Origin" (headers res') = Some "*"
             /\ header "Access-Control-Allow-Methods" (headers res') = Some "POST, OPTIONS"
             /\ header "Access-Control-Allow-Headers" (headers res') = Some "Content-Type").
  { intros status hs data Hhs res'. subst res'. cbn [end_ headers].
    rewrite !(writeHead_keeps_cors status hs _ _ Hhs) by reflexivity.
    now repeat split. }
  unfold on_request. rewrite Hcors. cbn [andb].
  destruct (String.eqb (req_method req) "OPTIONS").
  { eexists _, _. split; [reflexivity | apply Hkeep; now left]. }
  destruct (negb _).
  { eexists _, _. split; [reflexivity | apply Hkeep; now right]. }
  unfold on_end, try_catch, bind, lift, logger, emit, ret.
  destruct (JSON_parse js _) as [request | e].
  - destruct (handleRequest js this request st) as [[response | e] st1];
      eexists _, _; (split; [reflexivity | apply Hkeep; now right]).
  - eexists _, _. split; [reflexivity | apply Hkeep; now right].
Qed.

(** *** What the proxy guarantees about envelopes *)

Lemma forwarded_response (request response : jsval) (st st' : State World)
  (v : jsval) (w' : World) :
  nullish request = false ->
  intercepted (prop request "method") = false ->
  handleRequest js this request st = (Returned response, st') ->
  upstream_answer js (upstreamRpcUrl (config this)) (upstream_init js request) (world st)
    = (Returned v, w') ->
  response = v.
Proof.
  intros Hreq Hm Hrun Hup.
  rewrite (handleRequest_run World js this request st Hreq) in Hrun.
  unfold try_body, bind in Hrun.
  rewrite (switch_method_default World js this request _ _ _ Hm) in Hrun.
  rewrite (forwardToUpstream_run World js this request _ Hreq) in Hrun. cbv zeta in Hrun.
  cbn [world record] in Hrun. rewrite Hup in Hrun.
  unfold ret in Hrun. now injection Hrun as <- _.
Qed.

(** C3, as amended.  A response the dispatcher builds itself, for an
    intercepted method or after a failure, carries the id of the request; a
    forwarded request is answered with the upstream's own envelope, id
    included; a body that does not parse is answered with a null id. *)
Theorem response_id_of_own_envelopes (request response : jsval) (st st' : State World) :
  nullish request = false ->
  handleRequest js this request st = (Returned response, st') ->
  (intercepted (prop request "method") = true
   \/ (exists error st1,
         try_body js this request (prop request "method") (prop request "params")
           (prop request "id") (record (incoming_entry request) st) = (Threw error, st1)) ->
   prop response "id" = prop request "id")
  /\ (intercepted (prop request "method") = false ->
      forall v w',
        upstream_answer js (upstreamRpcUrl (config this)) (upstream_init js request) (world st)
          = (Returned v, w') ->
        prop response "id" = prop v "id")
  /\ (forall req res e,
        req_method req = "POST" ->
        JSON_parse js (read_body (req_chunks req)) = Threw e ->
        exists envelope res' st1,
          on_request js this req res st = (Returned res', st1)
          /\ payload res' = Some (JSON_stringify js envelope)
          /\ prop envelope "id" = JNull).
Proof.
  intros Hreq Hrun. split; [| split].
  - intros Hown.
    destruct (handleRequest_own_envelope World js this request response st st' Hreq Hrun Hown)
      as [(result & _ & ->) | (error & ->)]; reflexivity.
  - intros Hm v w' Hup.
    now rewrite (forwarded_response request response st st' v w' Hreq Hm Hrun Hup).
  - intros req res e Hpost Hparse.
    rewrite (post_is_handled req res st Hpost), (on_end_parse_error _ _ st e Hparse).
    exists parse_error_envelope. eexists _, _.
    split; [reflexivity | split; reflexivity].
Qed.

(** C4, as amended.  A response the dispatcher builds itself, for an
    intercepted method or after a failure, has exactly one of [result] and
    [error], and so has the parse-error envelope the listener writes; a
    forwarded request is answered with the upstream's envelope as it came. *)
Theorem own_envelopes_have_one_of_result_error (request response : jsval)
  (st st' : State World) :
  nullish request = false ->
  handleRequest js this request st = (Returned response, st') ->
  (intercepted (prop request "method") = true
   \/ (exists error st1,
         try_body js this request (prop request "method") (prop request "params")
           (prop request "id") (record (incoming_entry request) st) = (Threw error, st1)) ->
   xorb (present "result" response) (present "error" response) = true)
  /\ (intercepted (prop request "method") = false ->
      forall v w',
        upstream_answer js (upstreamRpcUrl (config this)) (upstream_init js request) (world st)
          = (Returned v, w') ->
        response = v)
  /\ (forall req res e,
        req_method req = "POST" ->
        JSON_parse js (read_body (req_chunks req)) = Threw e ->
        exists envelope res' st1,
          on_request js this req res st = (Returned res', st1)
          /\ payload res' = Some (JSON_stringify js envelope)
          /\ xorb (present "result" envelope) (present "error" envelope) = true).
Proof.
  intros Hreq Hrun. split; [| split].
  - intros Hown.
    destruct (handleRequest_own_envelope World js this request response st st' Hreq Hrun Hown)
      as [(result & Hdef & ->) | (error & ->)]; [| reflexivity].
    unfold result_envelope, present. cbn [lookup String.eqb Ascii.eqb Bool.eqb].
    destruct result; [discriminate Hdef | reflexivity ..].
  - intros Hm v w' Hup.
    exact (forwarded_response request response st st' v w' Hreq Hm Hrun Hup).
  - intros req res e Hpost Hparse.
    rewrite (post_is_handled req res st Hpost), (on_end_parse_error _ _ st e Hparse).
    exists parse_error_envelope. eexists _, _.
    split; [reflexivity | split; reflexivity].
Qed.

End Listener.

(** ** The routing table, row by row *)

(** Runs a method body to its end, one scrutinee after the other. *)
Ltac run_all :=
  repeat match goal with
         | |- context [match ?x with _ => _ end] =>
             lazymatch x with
             | context [match _ with _ => _ end] => fail
             | _ => destruct x eqn:?
             end
         end.

(** Names what a finished run has added to the trace. *)
Ltac name_added :=
  cbn [snd fst trace world];
  first [ exists (@nil Event); split; [symmetry; apply app_nil_r |]
        | eexists; split; [rewrite <- ?app_assoc; reflexivity |] ].

(** Decides the [case] labels against a method that is a known string. *)
Ltac pick_case :=
  repeat match goal with
         | |- context [is_case (JStr ?a) ?b] =>
             let v := eval vm_compute in (is_case (JStr a) b) in
             change (is_case (JStr a) b) with v
         end;
  cbn [orb].

(** Runs one case of the [switch] and reads the added trace off the result. *)
Ltac close_case :=
  unfold bind, lift, remote, logger, emit, ret, record, get_field; cbn [orb];
  run_all; name_added;
  repeat split; cbn; intros; try discriminate; try lia; reflexivity.

Section Routing.

Variable World : Type.
Variable js : Runtime World.
Variable this : TurnkeyRpcProxy World.

(** The [try] block is the [switch] followed by the [return] of the result
    envelope. *)
Lemma try_body_run (request method params id : jsval) (st : State World) :
  try_body js this request method params id st =
    match switch_method js this request method params st with
    | (Returned (Break result), st') => (Returned (result_envelope result id), st')
    | (Returned (Return response), st') => (Returned response, st')
    | (Threw e, st') => (Threw e, st')
    end.
Proof.
  unfold try_body, bind, ret.
  destruct (switch_method _ _ _ _ _ _) as [[[result | response] | e] st']; reflexivity.
Qed.

(** What one run of the [switch] adds to the trace. *)
Lemma switch_method_added (request method params : jsval) (st : State World) :
  nullish request = false ->
  exists added,
    trace (snd (switch_method js this request method params st)) = (trace st ++ added)%list
    /\ length (remote_calls added) <= 1
    /\ (intercepted method = true -> filter is_fetch added = [])
    /\ (intercepted method = false ->
        filter is_signer_call added = [] /\ length (filter is_fetch added) = 1)
    /\ (forall c, fst (switch_method js this request method params st) = Returned c ->
        filter (written Error) added = []).
Proof.
  intros Hreq. unfold intercepted, switch_method.
  destruct (is_case method "eth_accounts") eqn:E1; [close_case |].
  destruct (is_case method "eth_sendTransaction") eqn:E2; [close_case |].
  destruct (is_case method "eth_signTransaction") eqn:E3; [close_case |].
  destruct (is_case method "eth_sign") eqn:E4; [close_case |].
  destruct (is_case method "personal_sign") eqn:E5; [close_case |].
  destruct (is_case method "eth_signTypedData") eqn:E6; [close_case |].
  destruct (is_case method "eth_signTypedData_v3") eqn:E7; [close_case |].
  destruct (is_case method "eth_signTypedData_v4") eqn:E8; [close_case |].
  cbn [orb]. unfold bind, ret.
  rewrite (forwardToUpstream_run World js this request st Hreq). cbv zeta.
  destruct (upstream_answer _ _ _ _) as [[v | e] w']; name_added;
    repeat split; cbn; intros; try discriminate; try lia; reflexivity.
Qed.

(** X7.  Whatever the request, [handleRequest] logs it first and then makes
    at most one call that leaves the process: an intercepted method never
    reaches the upstream node, and any other method makes exactly one [fetch]
    and never touches the signer. *)
Theorem one_remote_call_per_request (request : jsval) (st : State World) :
  nullish request = false ->
  exists added,
    trace (snd (handleRequest js this request st))
      = (trace st ++ incoming_entry request :: added)%list
    /\ length (remote_calls added) <= 1
    /\ (intercepted (prop request "method") = true -> filter is_fetch added = [])
    /\ (intercepted (prop request "method") = false ->
        filter is_signer_call added = [] /\ length (filter is_fetch added) = 1).
Proof.
  intros Hreq. rewrite (handleRequest_run World js this request st Hreq), try_body_run.
  destruct (switch_method_added request (prop request "method") (prop request "params")
              (record (incoming_entry request) st) Hreq)
    as (added & Htrace & Hone & Hsign & Hfwd & _).
  destruct (switch_method _ _ _ _ _ _) as [[[result | response] | e] st1];
    cbn [snd fst trace record] in *.
  1, 2: exists added; rewrite Htrace, <- app_assoc; repeat split;
    solve [assumption | apply Hfwd; assumption].
  exists (added ++ [failure_entry request e])%list.
  rewrite Htrace, <- !app_assoc. split; [reflexivity |].
  unfold remote_calls in *. rewrite !filter_app. cbn [filter failure_entry is_log negb
    is_fetch is_signer_call]. rewrite !app_nil_r.
  repeat split; solve [assumption | apply Hfwd; assumption].
Qed.

(** *** The signing rows *)

Lemma is_case_eq (method : jsval) (label : string) :
  is_case method label = true -> method = JStr label.
Proof.
  destruct method; try discriminate. cbn [is_case]. intros H.
  now apply String.eqb_eq in H as ->.
Qed.

(** X1.  [eth_sendTransaction] hands [params[0]] to the signer's
    [sendTransaction], once.  When the signer accepts, the result is the
    hash of the transaction, which is logged; when it rejects, the answer is
    the internal-error envelope with the rejection.  The upstream node is
    not called by the proxy in either case. *)
Theorem eth_sendTransaction_row (request tx : jsval) (st : State World) :
  nullish request = false ->
  prop request "method" = JStr "eth_sendTransaction" ->
  get_index js (prop request "params") 0 = Returned tx ->
  handleRequest js this request st =
    match sendTransaction (turnkeySigner this) tx (world st) with
    | (Returned sent, w') =>
        (Returned (JObj [("jsonrpc", JStr "2.0"); ("result", JStr (hash sent));
                         ("id", prop request "id")]),
         {| world := w';
            trace := trace st ++ [incoming_entry request; EvSendTransaction tx;
                                  EvLog Info "Transaction sent"
                                    [("hash", LogText (hash sent))]] |})
    | (Threw e, w') =>
        (Returned (internal_error_envelope js e (prop request "id")),
         {| world := w';
            trace := trace st ++ [incoming_entry request; EvSendTransaction tx;
                                  failure_entry request e] |})
    end.
Proof.
  intros Hreq Hm Htx. rewrite (handleRequest_run World js this request st Hreq).
  unfold try_body, switch_method. rewrite Hm. pick_case.
  unfold bind, lift, remote, logger, emit, ret, record. rewrite Htx. cbn [world trace].
  destruct (sendTransaction _ _ _) as [[sent | e] w']; cbn [world trace];
    rewrite ?snoc3, ?snoc2; reflexivity.
Qed.

(** X2.  [eth_signTransaction] hands [params[0]] to the signer's
    [signTransaction], once, and returns the signed bytes; nothing is
    submitted: the only call made is that one. *)
Theorem eth_signTransaction_row (request tx : jsval) (st : State World) :
  nullish request = false ->
  prop request "method" = JStr "eth_signTransaction" ->
  get_index js (prop request "params") 0 = Returned tx ->
  handleRequest js this request st =
    match signTransaction (turnkeySigner this) tx (world st) with
    | (Returned signed, w') =>
        (Returned (JObj [("jsonrpc", JStr "2.0"); ("result", JStr signed);
                         ("id", prop request "id")]),
         {| world := w';
            trace := trace st ++ [incoming_entry request; EvSignTransaction tx] |})
    | (Threw e, w') =>
        (Returned (internal_error_envelope js e (prop request "id")),
         {| world := w';
            trace := trace st ++ [incoming_entry request; EvSignTransaction tx;
                                  failure_entry request e] |})
    end.
Proof.
  intros Hreq Hm Htx. rewrite (handleRequest_run World js this request st Hreq).
  unfold try_body, switch_method. rewrite Hm. pick_case.
  unfold bind, lift, remote, logger, emit, ret, record. rewrite Htx. cbn [world trace].
  destruct (signTransaction _ _ _) as [[signed | e] w']; cbn [world trace];
    rewrite ?snoc3, ?snoc2; reflexivity.
Qed.

(** X3.  [eth_sign] and [personal_sign] are one operation: both hand
    [params[0]], whatever it is, to the signer's [signMessage], and return
    its signature. *)
Theorem sign_message_row (request msg : jsval) (st : State World) :
  nullish request = false ->
  prop request "method" = JStr "eth_sign" \/ prop request "method" = JStr "personal_sign" ->
  get_index js (prop request "params") 0 = Returned msg ->
  handleRequest js this request st =
    match signMessage (turnkeySigner this) msg (world st) with
    | (Returned signature, w') =>
        (Returned (JObj [("jsonrpc", JStr "2.0"); ("result", JStr signature);
                         ("id", prop request "id")]),
         {| world := w';
            trace := trace st ++ [incoming_entry request; EvSignMessage msg] |})
    | (Threw e, w') =>
        (Returned (internal_error_envelope js e (prop request "id")),
         {| world := w';
            trace := trace st ++ [incoming_entry request; EvSignMessage msg;
                                  failure_entry request e] |})
    end.
Proof.
  intros Hreq Hm Hmsg. rewrite (handleRequest_run World js this request st Hreq).
  unfold try_body, switch_method.
  destruct Hm as [Hm | Hm]; rewrite Hm; pick_case;
    unfold bind, lift, remote, logger, emit, ret, record; rewrite Hmsg; cbn [world trace];
    destruct (signMessage _ _ _) as [[signature | e] w']; cbn [world trace];
    rewrite ?snoc3, ?snoc2; reflexivity.
Qed.

(** X4.  The three typed-data methods are one operation: [params[1]] is
    converted to a string and parsed as JSON, and the [domain], [types] and
    [message] of the parsed value go to the signer's [signTypedData]; the
    result is its signature.  [params[0]] is not read. *)
Theorem sign_typed_data_row (request arg typed : jsval) (st : State World) :
  nullish request = false ->
  prop request "method" = JStr "eth_signTypedData"
  \/ prop request "method" = JStr "eth_signTypedData_v3"
  \/ prop request "method" = JStr "eth_signTypedData_v4" ->
  get_index js (prop request "params") 1 = Returned arg ->
  JSON_parse js (ToString js arg) = Returned typed ->
  nullish typed = false ->
  handleRequest js this request st =
    match signTypedData (turnkeySigner this) (prop typed "domain") (prop typed "types")
            (prop typed "message") (world st) with
    | (Returned signature, w') =>
        (Returned (JObj [("jsonrpc", JStr "2.0"); ("result", JStr signature);
                         ("id", prop request "id")]),
         {| world := w';
            trace := trace st ++ [incoming_entry request;
                                  EvSignTypedData (prop typed "domain") (prop typed "types")
                                    (prop typed "message")] |})
    | (Threw e, w') =>
        (Returned (internal_error_envelope js e (prop request "id")),
         {| world := w';
            trace := trace st ++ [incoming_entry request;
                                  EvSignTypedData (prop typed "domain") (prop typed "types")
                                    (prop typed "message");
                                  failure_entry request e] |})
    end.
Proof.
  intros Hreq Hm Harg Hparse Htyped.
  rewrite (handleRequest_run World js this request st Hreq).
  unfold try_body, switch_method.
  destruct Hm as [Hm | [Hm | Hm]]; rewrite Hm; pick_case;
    unfold bind, lift, remote, logger, emit, ret, record;
    rewrite Harg, Hparse, !(get_field_defined World js typed _ Htyped); cbn [world trace];
    destruct (signTypedData _ _ _ _ _) as [[signature | e] w']; cbn [world trace];
    rewrite ?snoc3, ?snoc2; reflexivity.
Qed.

(** *** Parameters that cannot be read *)

Lemma get_index_nullish (v : jsval) (i : nat) :
  nullish v = true -> get_index js v i = Threw (type_error js v (index_key i)).
Proof. destruct v; try discriminate; reflexivity. Qed.

Lemma reads_first_param_cases (method : jsval) :
  reads_first_param method = true ->
  method = JStr "eth_sendTransaction" \/ method = JStr "eth_signTransaction"
  \/ method = JStr "eth_sign" \/ method = JStr "personal_sign".
Proof.
  unfold reads_first_param. intros H.
  repeat (apply orb_true_iff in H as [H | H]); apply is_case_eq in H; auto.
Qed.

Lemma is_typed_data_cases (method : jsval) :
  is_typed_data method = true ->
  method = JStr "eth_signTypedData" \/ method = JStr "eth_signTypedData_v3"
  \/ method = JStr "eth_signTypedData_v4".
Proof.
  unfold is_typed_data. intros H.
  repeat (apply orb_true_iff in H as [H | H]); apply is_case_eq in H; auto.
Qed.

(** X5.  A signing request without parameters ([params] missing or [null])
    is answered with the internal-error envelope carrying the [TypeError] of
    the failed read: of [params[0]] for [eth_sendTransaction],
    [eth_signTransaction], [eth_sign] and [personal_sign], of [params[1]]
    for the typed-data methods.  The signer is not called and the world is
    as before.  ([eth_accounts] and the forwarded methods read no
    parameter.) *)
Theorem missing_params_is_internal_error (request : jsval) (st : State World) :
  nullish request = false ->
  nullish (prop request "params") = true ->
  (reads_first_param (prop request "method") = true ->
   handleRequest js this request st =
     (Returned (internal_error_envelope js
                  (type_error js (prop request "params") (index_key 0))
                  (prop request "id")),
      {| world := world st;
         trace := trace st ++ [incoming_entry request;
                               failure_entry request
                                 (type_error js (prop request "params") (index_key 0))] |}))
  /\ (is_typed_data (prop request "method") = true ->
      handleRequest js this request st =
        (Returned (internal_error_envelope js
                     (type_error js (prop request "params") (index_key 1))
                     (prop request "id")),
         {| world := world st;
            trace := trace st ++ [incoming_entry request;
                                  failure_entry request
                                    (type_error js (prop request "params") (index_key 1))] |})).
Proof.
  intros Hreq Hparams. rewrite (handleRequest_run World js this request st Hreq).
  unfold try_body, switch_method. split; intros Hm.
  - apply reads_first_param_cases in Hm as [Hm | [Hm | [Hm | Hm]]]; rewrite Hm; pick_case;
      unfold bind, lift, remote, logger, emit, ret, record;
      rewrite (get_index_nullish _ 0 Hparams); cbn [world trace];
      rewrite snoc2; reflexivity.
  - apply is_typed_data_cases in Hm as [Hm | [Hm | Hm]]; rewrite Hm; pick_case;
      unfold bind, lift, remote, logger, emit, ret, record;
      rewrite (get_index_nullish _ 1 Hparams); cbn [world trace];
      rewrite snoc2; reflexivity.
Qed.

(** X6.  Typed data that does not parse, or that parses to [null], is
    answered with the internal-error envelope carrying that error; the
    signer is not called and the world is as before. *)
Theorem malformed_typed_data_is_internal_error (request arg : jsval) (st : State World) :
  nullish request = false ->
  is_typed_data (prop request "method") = true ->
  get_index js (prop request "params") 1 = Returned arg ->
  forall error,
    JSON_parse js (ToString js arg) = Threw error
    \/ (exists typed, JSON_parse js (ToString js arg) = Returned typed
                      /\ nullish typed = true
                      /\ error = type_error js typed "domain") ->
    handleRequest js this request st =
      (Returned (internal_error_envelope js error (prop request "id")),
       {| world := world st;
          trace := trace st ++ [incoming_entry request; failure_entry request error] |}).
Proof.
  intros Hreq Hm Harg error Hbad.
  rewrite (handleRequest_run World js this request st Hreq).
  unfold try_body, switch_method.
  apply is_typed_data_cases in Hm as [Hm | [Hm | Hm]]; rewrite Hm; pick_case;
    unfold bind, lift, remote, logger, emit, ret, record; rewrite Harg;
    (destruct Hbad as [Hparse | (typed & Hparse & Hnull & ->)]; rewrite Hparse;
     [| rewrite (get_field_nullish World js typed _ Hnull)]);
    cbn [world trace]; rewrite snoc2; reflexivity.
Qed.

(** *** The default row *)

(** X8.  When the upstream call fails (the node cannot be reached, its body
    cannot be read, or the body is not JSON), a forwarded request is
    answered with the internal-error envelope carrying that very error,
    after one [fetch] and no retry; the failure is logged by
    [forwardToUpstream] and again by [handleRequest]. *)
Theorem upstream_failure_row (request : jsval) (st : State World) (e : exn) (w' : World) :
  nullish request = false ->
  intercepted (prop request "method") = false ->
  upstream_answer js (upstreamRpcUrl (config this)) (upstream_init js request) (world st)
    = (Threw e, w') ->
  handleRequest js this request st =
    (Returned (internal_error_envelope js e (prop request "id")),
     {| world := w';
        trace := trace st ++ [incoming_entry request; forwarding_entry request;
                              EvFetch (upstreamRpcUrl (config this)) (upstream_init js request);
                              forward_failure_entry e; failure_entry request e] |}).
Proof.
  intros Hreq Hm Hup. rewrite (handleRequest_run World js this request st Hreq).
  unfold try_body, bind.
  rewrite (switch_method_default World js this request _ _ _ Hm).
  rewrite (forwardToUpstream_run World js this request _ Hreq). cbv zeta.
  cbn [world record]. rewrite Hup. unfold record. cbn [world trace].
  rewrite <- !app_assoc. reflexivity.
Qed.

(** The eight [case] labels. *)
Lemma intercepted_names (method : jsval) :
  intercepted method = true ->
  exists name,
    method = JStr name
    /\ In name ["eth_accounts"; "eth_sendTransaction"; "eth_signTransaction"; "eth_sign";
                "personal_sign"; "eth_signTypedData"; "eth_signTypedData_v3";
                "eth_signTypedData_v4"].
Proof.
  unfold intercepted. intros H.
  repeat (apply orb_true_iff in H as [H | H]); apply is_case_eq in H;
    eexists; (split; [exact H | cbn; tauto]).
Qed.

(** X9.  The proxy rejects no method: a request whose method is missing, is
    not a string, or is a string other than the eight labels (a label in
    another letter case included) goes to the upstream node, in one
    [fetch], and the signer is not called. *)
Theorem unknown_method_is_forwarded (request : jsval) (st : State World) :
  nullish request = false ->
  (forall name,
     prop request "method" = JStr name ->
     ~ In name ["eth_accounts"; "eth_sendTransaction"; "eth_signTransaction"; "eth_sign";
                "personal_sign"; "eth_signTypedData"; "eth_signTypedData_v3";
                "eth_signTypedData_v4"]) ->
  exists added,
    trace (snd (handleRequest js this request st))
      = (trace st ++ incoming_entry request :: added)%list
    /\ filter is_signer_call added = []
    /\ filter is_fetch added =
         [EvFetch (upstreamRpcUrl (config this))
            {| init_method := "POST";
               init_headers := [("Content-Type", "application/json")];
               init_body := JSON_stringify js request |}].
Proof.
  intros Hreq Hunknown.
  assert (Hm : intercepted (prop request "method") = false).
  { destruct (intercepted (prop request "method")) eqn:E; [| reflexivity].
    destruct (intercepted_names _ E) as (name & Hname & Hin).
    now destruct (Hunknown name Hname). }
  rewrite (handleRequest_run World js this request st Hreq).
  unfold try_body, bind.
  rewrite (switch_method_default World js this request _ _ _ Hm).
  rewrite (forwardToUpstream_run World js this request _ Hreq). cbv zeta.
  cbn [world record].
  destruct (upstream_answer _ _ _ _) as [[v | e] w']; unfold record, ret;
    cbn [snd trace world]; eexists;
    (split; [rewrite <- !app_assoc; reflexivity | split; reflexivity]).
Qed.

(** *** What is written to the log *)

(** X21.  With logging disabled the logger is at level [error]: a request
    that is handled without failure writes nothing.  A failure is written
    under either setting.  The debug entry of [forwardToUpstream] is
    written under neither. *)
Theorem log_output_by_setting (request : jsval) (st : State World) :
  nullish request = false ->
  (truthy (enableLogging (config this)) = false ->
   forall response st1,
     try_body js this request (prop request "method") (prop request "params")
       (prop request "id") (record (incoming_entry request) st) = (Returned response, st1) ->
     log_output (config this) (trace (snd (handleRequest js this request st)))
       = log_output (config this) (trace st))
  /\ (forall error st1,
        try_body js this request (prop request "method") (prop request "params")
          (prop request "id") (record (incoming_entry request) st) = (Threw error, st1) ->
        In (failure_entry request error)
           (log_output (config this) (trace (snd (handleRequest js this request st)))))
  /\ written (logger_level (config this)) (forwarding_entry request) = false.
Proof.
  intros Hreq. split; [| split].
  - intros Hoff response st1 Hbody.
    rewrite (handleRequest_run World js this request st Hreq), Hbody. cbn [snd].
    rewrite try_body_run in Hbody.
    destruct (switch_method_added request (prop request "method") (prop request "params")
                (record (incoming_entry request) st) Hreq)
      as (added & Htrace & _ & _ & _ & Hquiet).
    destruct (switch_method _ _ _ _ _ _) as [[c | e] st2] eqn:Hswitch.
    + specialize (Hquiet c eq_refl). cbn [snd fst trace record] in Htrace.
      assert (Hst : st1 = st2) by (destruct c; now injection Hbody). subst st2.
      unfold log_output, logger_level. rewrite Hoff, Htrace, !filter_app, Hquiet.
      cbn [filter written incoming_entry rank Nat.leb]. now rewrite !app_nil_r.
    + discriminate Hbody.
  - intros error st1 Hbody.
    rewrite (handleRequest_run World js this request st Hreq), Hbody. cbn [snd record trace].
    unfold log_output. rewrite filter_app. apply in_or_app. right.
    cbn [filter written failure_entry rank Nat.leb]. now left.
  - unfold logger_level. destruct (truthy _); reflexivity.
Qed.

End Routing.

(** ** The listener, path by path *)

Section Connections.

Variable World : Type.
Variable js : Runtime World.
Variable this : TurnkeyRpcProxy World.

Lemma handleRequest_nullish (request : jsval) (st : State World) :
  nullish request = true ->
  handleRequest js this request st = (Threw (type_error js request "method"), st).
Proof.
  intros Hnull. unfold handleRequest, bind, lift.
  now rewrite (get_field_nullish World js request _ Hnull).
Qed.

(** A POST whose body parses to a value [handleRequest] accepts: the
    listener writes what [handleRequest] returned, with status 200. *)
Lemma on_end_handled (body : string) (res : ServerResponse) (st st' : State World)
  (request response : jsval) :
  JSON_parse js body = Returned request ->
  handleRequest js this request st = (Returned response, st') ->
  on_end js this body res st =
    (Returned (end_ (Some (JSON_stringify js response)) (writeHead 200 json_content_type res)),
     st').
Proof.
  intros Hparse Hrun. unfold on_end, try_catch, bind, lift, ret.
  now rewrite Hparse, Hrun.
Qed.

(** X10.  An answer the listener writes is ended, and its status is one of
    three: 200 for a preflight under CORS and for a POST whose body parses
    to a value other than [null]; 405 for any other verb; 400 for a POST
    whose body does not parse or parses to [null].  The answers with status
    405 and 400, and the preflight, are written without any call to the
    signer or the upstream node. *)
Theorem status_table (req : IncomingMessage) (res res' : ServerResponse)
  (st st' : State World) :
  on_request js this req res st = (Returned res', st') ->
  finished res' = true
  /\ statusCode res' =
       Some (if truthy (enableCors (config this)) && String.eqb (req_method req) "OPTIONS"
             then 200
             else if negb (String.eqb (req_method req) "POST") then 405
             else match JSON_parse js (read_body (req_chunks req)) with
                  | Returned request => if nullish request then 400 else 200
                  | Threw _ => 400
                  end)
  /\ ((truthy (enableCors (config this)) && String.eqb (req_method req) "OPTIONS" = true
       \/ statusCode res' = Some 405 \/ statusCode res' = Some 400) ->
      world st' = world st /\ remote_calls (trace st') = remote_calls (trace st)).
Proof.
  unfold on_request.
  destruct (truthy (enableCors (config this)) && _).
  { intros H. injection H as <- <-. repeat split. }
  destruct (negb _).
  { intros H. injection H as <- <-. repeat split. }
  destruct (JSON_parse js _) as [request | e] eqn:Hparse.
  - destruct (nullish request) eqn:Hnull.
    + unfold on_end, try_catch, bind, lift, logger, emit, ret.
      rewrite Hparse, (handleRequest_nullish request st Hnull).
      intros H. injection H as <- <-. repeat split.
      unfold remote_calls. cbn [record trace]. rewrite filter_app. cbn. apply app_nil_r.
    + pose proof (handleRequest_run World js this request st Hnull) as Hrun.
      destruct (try_body _ _ _ _ _ _ _) as [[response | error] st1];
        rewrite (on_end_handled _ _ st _ request _ Hparse Hrun);
        intros H; injection H as <- <-;
        (split; [reflexivity | split; [reflexivity |]]);
        intros [Habs | [Habs | Habs]]; discriminate Habs.
  - rewrite (on_end_parse_error World js this _ _ st e Hparse).
    intros H. injection H as <- <-. repeat split.
    unfold remote_calls. cbn [record trace]. rewrite filter_app. cbn. apply app_nil_r.
Qed.

(** X11.  A POST whose body is valid JSON for [null] is answered like a
    body that does not parse: status 400 and the parse-error envelope.
    Nothing is called, and the only log entry is the one of the listener,
    carrying the [TypeError] of the failed destructuring. *)
Theorem null_body_is_parse_error (req : IncomingMessage) (res : ServerResponse)
  (st : State World) (request : jsval) :
  req_method req = "POST" ->
  JSON_parse js (read_body (req_chunks req)) = Returned request ->
  nullish request = true ->
  exists res',
    on_request js this req res st =
      (Returned res',
       record (parse_failure_entry (read_body (req_chunks req))
                 (type_error js request "method")) st)
    /\ statusCode res' = Some 400
    /\ payload res' = Some (JSON_stringify js parse_error_envelope).
Proof.
  intros Hpost Hparse Hnull.
  rewrite (post_is_handled World js this req res st Hpost).
  unfold on_end, try_catch, bind, lift, logger, emit, ret.
  rewrite Hparse, (handleRequest_nullish request st Hnull).
  eexists. repeat split.
Qed.

(** X12.  A request that is not a POST is answered without reading its
    body and without any call or log entry: the state is untouched and the
    answer is the same whatever the body. *)
Theorem non_post_touches_nothing (req : IncomingMessage) (res : ServerResponse)
  (st : State World) :
  req_method req <> "POST" ->
  snd (on_request js this req res st) = st
  /\ forall chunks,
       on_request js this {| req_method := req_method req; req_chunks := chunks |} res st
         = on_request js this req res st.
Proof.
  intros Hverb. apply String.eqb_neq in Hverb. unfold on_request. cbn [req_method].
  rewrite Hverb. cbn [negb].
  destruct (truthy (enableCors (config this)) && _); split; reflexivity.
Qed.

(** X13.  Under CORS the preflight is answered with status 200, the three
    CORS headers and nothing else: no body, no content type, no call. *)
Theorem preflight_under_cors (req : IncomingMessage) (st : State World) :
  truthy (enableCors (config this)) = true ->
  req_method req = "OPTIONS" ->
  on_request js this req fresh_response st =
    (Returned {| headers := [("Access-Control-Allow-Origin", "*");
                             ("Access-Control-Allow-Methods", "POST, OPTIONS");
                             ("Access-Control-Allow-Headers", "Content-Type")];
                 statusCode := Some 200;
                 payload := None;
                 finished := true |},
     st).
Proof.
  intros Hcors Hverb. unfold on_request. rewrite Hcors, Hverb. reflexivity.
Qed.

(** X15.  End to end, a POST for a method the proxy does not intercept is
    answered with status 200, the JSON content type, and the serialisation
    of what the upstream node answered to the serialised request. *)
Theorem post_is_passed_through (req : IncomingMessage) (res : ServerResponse)
  (st : State World) (request v : jsval) (w' : World) :
  req_method req = "POST" ->
  JSON_parse js (read_body (req_chunks req)) = Returned request ->
  nullish request = false ->
  intercepted (prop request "method") = false ->
  upstream_answer js (upstreamRpcUrl (config this)) (upstream_init js request) (world st)
    = (Returned v, w') ->
  exists res' st',
    on_request js this req res st = (Returned res', st')
    /\ statusCode res' = Some 200
    /\ payload res' = Some (JSON_stringify js v)
    /\ header "Content-Type" (headers res') = Some "application/json"
    /\ world st' = w'
    /\ remote_calls (trace st') =
         (remote_calls (trace st)
          ++ [EvFetch (upstreamRpcUrl (config this))
                {| init_method := "POST";
                   init_headers := [("Content-Type", "application/json")];
                   init_body := JSON_stringify js request |}])%list.
Proof.
  intros Hpost Hparse Hreq Hm Hup.
  rewrite (post_is_handled World js this req res st Hpost).
  assert (Hrun : handleRequest js this request st =
                 (Returned v,
                  {| world := w';
                     trace := trace st ++ [incoming_entry request; forwarding_entry request;
                                           EvFetch (upstreamRpcUrl (config this))
                                             (upstream_init js request)] |})).
  { rewrite (handleRequest_run World js this request st Hreq).
    unfold try_body, bind.
    rewrite (switch_method_default World js this request _ _ _ Hm).
    rewrite (forwardToUpstream_run World js this request _ Hreq). cbv zeta.
    cbn [world record]. rewrite Hup. unfold record, ret. cbn [world trace].
    rewrite <- !app_assoc. reflexivity. }
  rewrite (on_end_handled _ _ st _ request v Hparse Hrun).
  eexists _, _. split; [reflexivity |]. repeat split.
  - cbn [end_ writeHead headers json_content_type fold_left fst snd].
    apply header_put_same.
  - cbn [trace]. unfold remote_calls. rewrite filter_app. reflexivity.
Qed.

(** X16.  With CORS disabled no response carries a CORS header: whatever
    the request, the only header written is the JSON content type. *)
Theorem no_cors_header_when_disabled (req : IncomingMessage) (st : State World) :
  truthy (enableCors (config this)) = false ->
  exists res' st',
    on_request js this req fresh_response st = (Returned res', st')
    /\ headers res' = [("Content-Type", "application/json")].
Proof.
  intros Hcors.
  destruct (on_request_returns World js this req fresh_response st) as (res' & st' & Hrun).
  exists res', st'. split; [exact Hrun |].
  revert Hrun. unfold on_request. rewrite Hcors. cbn [andb].
  destruct (negb _).
  - intros Hrun. injection Hrun as <- _. reflexivity.
  - unfold on_end, try_catch, bind, lift, logger, emit, ret.
    destruct (JSON_parse js _) as [request | e].
    + destruct (handleRequest js this request st) as [[response | e] st1];
        intros Hrun; injection Hrun as <- _; reflexivity.
    + intros Hrun; injection Hrun as <- _; reflexivity.
Qed.

End Connections.

(** ** Start-up *)

Section StartupProperties.

Variable parseInt : string -> N.

Lemma not_given_stored (v : option string) : not_given (stored v) = negb (given v).
Proof.
  destruct v as [s |]; cbn [stored given not_given]; [| reflexivity].
  now rewrite negb_involutive.
Qed.

(** The names pushed by the validation are the required names that are not
    given, in the order of the checks. *)
Lemma missing_names_filter (env : Env) :
  missing_names (read_config parseInt env)
    = filter (fun name => negb (given (env name))) required_names.
Proof.
  unfold missing_names, read_config, push_if_missing, required_names.
  cbn [turnkeyConfig organizationId privateKeyId apiPublicKey apiPrivateKey filter].
  rewrite !not_given_stored.
  destruct (given (env "TURNKEY_ORGANIZATION_ID")), (given (env "TURNKEY_PRIVATE_KEY_ID")),
    (given (env "TURNKEY_API_PUBLIC_KEY")), (given (env "TURNKEY_API_PRIVATE_KEY"));
    reflexivity.
Qed.

Lemma stored_given (v : option string) : given v = true -> Some (stored v) = v.
Proof. destruct v; [reflexivity | discriminate]. Qed.

(** A returned configuration is the object literal read from the
    environment. *)
Lemma loadConfig_loaded (env : Env) (config : ProxyConfig) :
  loadConfig parseInt env = Loaded config -> config = read_config parseInt env.
Proof.
  unfold loadConfig. cbv zeta. destruct (0 <? _)%nat; [discriminate |].
  intros H. now injection H.
Qed.

(** X17.  [loadConfig] returns a configuration exactly when each of the
    four required variables is set to a text that is not empty; the
    configuration then holds those four texts, and the flags are booleans. *)
Theorem loadConfig_succeeds_iff (env : Env) :
  ((exists config, loadConfig parseInt env = Loaded config)
   <-> (forall name, In name required_names -> given (env name) = true))
  /\ (forall config,
        loadConfig parseInt env = Loaded config ->
        Some (organizationId (turnkeyConfig config)) = env "TURNKEY_ORGANIZATION_ID"
        /\ Some (privateKeyId (turnkeyConfig config)) = env "TURNKEY_PRIVATE_KEY_ID"
        /\ Some (apiPublicKey (turnkeyConfig config)) = env "TURNKEY_API_PUBLIC_KEY"
        /\ Some (apiPrivateKey (turnkeyConfig config)) = env "TURNKEY_API_PRIVATE_KEY"
        /\ enableLogging config = Some (is_true_text (env "ENABLE_LOGGING"))
        /\ enableCors config = Some (is_true_text (env "ENABLE_CORS"))).
Proof.
  unfold loadConfig. cbv zeta. rewrite missing_names_filter.
  unfold required_names. cbn [filter].
  destruct (given (env "TURNKEY_ORGANIZATION_ID")) eqn:E1,
    (given (env "TURNKEY_PRIVATE_KEY_ID")) eqn:E2,
    (given (env "TURNKEY_API_PUBLIC_KEY")) eqn:E3,
    (given (env "TURNKEY_API_PRIVATE_KEY")) eqn:E4;
    cbn [negb length Nat.ltb Nat.leb app].
  1: { split.
       - split; [| intros _; eexists; reflexivity].
         intros _ name [<- | [<- | [<- | [<- | []]]]]; assumption.
       - intros config Hload. injection Hload as <-.
         cbn [read_config turnkeyConfig organizationId privateKeyId apiPublicKey
                apiPrivateKey enableLogging enableCors].
         rewrite !stored_given by assumption. repeat split. }
  all: split; [split; [intros (config & Habs); discriminate Habs |]
              | intros config Habs; discriminate Habs].
  all: intros Hall.
  all: first [ specialize (Hall "TURNKEY_ORGANIZATION_ID" ltac:(cbn; tauto)); congruence
             | specialize (Hall "TURNKEY_PRIVATE_KEY_ID" ltac:(cbn; tauto)); congruence
             | specialize (Hall "TURNKEY_API_PUBLIC_KEY" ltac:(cbn; tauto)); congruence
             | specialize (Hall "TURNKEY_API_PRIVATE_KEY" ltac:(cbn; tauto)); congruence ].
Qed.

(** X18.  When a required variable is not given, [loadConfig] exits with
    status 1 after printing the header, then the names of exactly the
    required variables that are unset or empty, each once and in the order
    of the checks, then the advice. *)
Theorem loadConfig_names_what_is_missing (env : Env) (status : nat)
  (printed : list ConsoleLine) :
  loadConfig parseInt env = Exited status printed ->
  status = 1
  /\ printed = (MissingHeader
                :: map MissingVariable
                     (filter (fun name => negb (given (env name))) required_names)
                ++ [SecretsHint])%list
  /\ (forall name,
        In (MissingVariable name) printed
        <-> In name required_names /\ given (env name) = false).
Proof.
  unfold loadConfig. cbv zeta. rewrite missing_names_filter.
  pose proof (fun name => filter_In (fun name => negb (given (env name))) name required_names)
    as Hfilter.
  remember (filter (fun name => negb (given (env name))) required_names) as missing
    eqn:Hmissing.
  clear Hmissing.
  destruct (0 <? _)%nat; [| discriminate].
  intros H. injection H as <- <-. split; [reflexivity | split; [reflexivity |]].
  intros name. cbn [In]. split.
  - intros [Habs | Hin]; [discriminate Habs |].
    apply in_app_or in Hin as [Hin | [Habs | []]]; [| discriminate Habs].
    apply in_map_iff in Hin as (n & Hn & Hin). injection Hn as ->.
    apply Hfilter in Hin as [Hin Hg]. split; [exact Hin |].
    now apply negb_true_iff in Hg.
  - intros [Hin Hg]. right. apply in_or_app. left.
    apply in_map. apply Hfilter. split; [exact Hin |]. now rewrite Hg.
Qed.

(** X19.  [loadConfig] depends on the nine variables it reads and on
    nothing else in the environment: a variable under any other name
    ([UPSTREAM_RPC_URL], say) changes nothing. *)
Theorem loadConfig_reads_nine_variables (env env' : Env) :
  (forall name, In name read_names -> env name = env' name) ->
  loadConfig parseInt env = loadConfig parseInt env'.
Proof.
  intros Hsame. unfold loadConfig, read_config.
  rewrite !(Hsame _ ltac:(cbn; tauto)) by (cbn; tauto).
  now repeat match goal with
             | |- context [env ?name] => rewrite (Hsame name) by (cbn; tauto)
             end.
Qed.

End StartupProperties.

(** *** From the environment to the answers *)

Section Switches.

Variable parseInt : string -> N.
Variable World : Type.
Variable js : Runtime World.
Variable this : TurnkeyRpcProxy World.

(** X20.  The two switches are on for the text [true] and for no other:
    a proxy running on the loaded configuration answers a preflight with
    200 exactly when [ENABLE_CORS] is [true] (with 405 otherwise), and its
    logger is at level [info] exactly when [ENABLE_LOGGING] is [true]. *)
Theorem switches_need_exact_true (env : Env) (req : IncomingMessage)
  (res : ServerResponse) (st : State World) :
  loadConfig parseInt env = Loaded (config this) ->
  req_method req = "OPTIONS" ->
  (exists res',
     on_request js this req res st = (Returned res', st)
     /\ statusCode res' = Some (if is_true_text (env "ENABLE_CORS") then 200 else 405))
  /\ logger_level (config this)
     = (if is_true_text (env "ENABLE_LOGGING") then Info else Error).
Proof.
  intros Hload Hverb.
  apply loadConfig_loaded in Hload.
  split.
  - unfold on_request. rewrite Hload, Hverb. cbn [read_config enableCors truthy].
    destruct (is_true_text (env "ENABLE_CORS")); eexists; split; reflexivity.
  - unfold logger_level. rewrite Hload. cbn [read_config enableLogging truthy].
    destruct (is_true_text (env "ENABLE_LOGGING")); reflexivity.
Qed.

End Switches.

(** ** The theorems at work on the stand-ins *)

Section Examples.

Import Doubles.

Lemma handleRequest_never_throws_witness :
  nullish send_transaction = false
  /\ exists response st',
       handleRequest js_empty (proxy false rejecting_signer) send_transaction start_state
         = (Returned response, st')
       /\ (forall error st1,
             try_body js_empty (proxy false rejecting_signer) send_transaction
               (prop send_transaction "method") (prop send_transaction "params")
               (prop send_transaction "id")
               (record (incoming_entry send_transaction) start_state) = (Threw error, st1) ->
             present "error" response = true).
Proof.
  split; [reflexivity |].
  apply (handleRequest_never_throws World js_empty (proxy false rejecting_signer)
           send_transaction start_state).
  reflexivity.
Defined.

Lemma internal_error_response_witness :
  nullish send_transaction = false
  /\ try_body js_empty (proxy false rejecting_signer) send_transaction
       (prop send_transaction "method") (prop send_transaction "params")
       (prop send_transaction "id")
       (record (incoming_entry send_transaction) start_state)
     = (Threw policy_rejection, after_rejection)
  /\ handleRequest js_empty (proxy false rejecting_signer) send_transaction start_state
     = (Returned (JObj [("jsonrpc", JStr "2.0");
                        ("error", JObj [("code", JNum (-32603)%float);
                                        ("message", JStr "Internal error");
                                        ("data", JStr "policy rejection")]);
                        ("id", JNum 2%float)]),
        record (failure_entry send_transaction policy_rejection) after_rejection).
Proof.
  split; [reflexivity | split; [reflexivity |]].
  apply (internal_error_response World js_empty (proxy false rejecting_signer)
           send_transaction start_state after_rejection policy_rejection);
    reflexivity.
Defined.

Lemma passthrough_identity_witness :
  nullish get_balance = false
  /\ intercepted (prop get_balance "method") = false
  /\ fst (handleRequest js_empty (proxy false signer) get_balance start_state)
     = Returned (JObj []).
Proof.
  split; [reflexivity | split; [reflexivity |]].
  apply (passthrough_identity World js_empty (proxy false signer) get_balance start_state
           {| resp_status := 200; resp_text := Returned "{}" |} empty_world "{}" (JObj []));
    reflexivity.
Defined.

Lemma forwardToUpstream_single_call_witness :
  nullish get_balance = false
  /\ (exists added,
        trace (snd (forwardToUpstream js_empty (proxy false signer) get_balance start_state))
          = (trace start_state ++ added)%list
        /\ remote_calls added =
             [EvFetch "https://eth.llamarpc.com"
                {| init_method := "POST";
                   init_headers := [("Content-Type", "application/json")];
                   init_body := stringify get_balance |}]).
Proof.
  split; [reflexivity |].
  apply (forwardToUpstream_single_call World js_empty (proxy false signer) get_balance
           start_state).
  reflexivity.
Defined.

Lemma eth_accounts_same_address_witness :
  nullish (accounts (JNum 1%float)) = false
  /\ prop (accounts (JNum 1%float)) "method" = JStr "eth_accounts"
  /\ nullish (accounts (JNum 2%float)) = false
  /\ prop (accounts (JNum 2%float)) "method" = JStr "eth_accounts"
  /\ getAddress signer (world start_state) = (Returned address, world start_state)
  /\ exists first second st1 st2,
       handleRequest js_down (proxy false signer) (accounts (JNum 1%float)) start_state
         = (Returned first, st1)
       /\ handleRequest js_down (proxy false signer) (accounts (JNum 2%float)) st1
          = (Returned second, st2)
       /\ prop first "result" = JArr [JStr address]
       /\ prop second "result" = JArr [JStr address]
       /\ world st2 = world start_state
       /\ filter (fun e => negb (is_log e)) (trace st2)
          = (filter (fun e => negb (is_log e)) (trace start_state)
             ++ [EvGetAddress; EvGetAddress])%list.
Proof.
  repeat (split; [reflexivity |]).
  apply (eth_accounts_same_address World js_down (proxy false signer)
           (accounts (JNum 1%float)) (accounts (JNum 2%float)) start_state address);
    reflexivity.
Defined.

Lemma parse_error_reply_witness :
  req_method broken_post = "POST"
  /\ JSON_parse js_empty (read_body (req_chunks broken_post))
     = Threw (ErrorObject "SyntaxError" "JSON Parse error")
  /\ exists res' st',
       on_request js_empty (proxy false signer) broken_post fresh_response start_state
         = (Returned res', st')
       /\ statusCode res' = Some 400
       /\ payload res' =
            Some (JSON_stringify js_empty
                    (JObj [("jsonrpc", JStr "2.0");
                           ("error", JObj [("code", JNum (-32700)%float);
                                           ("message", JStr "Parse error")]);
                           ("id", JNull)])).
Proof.
  split; [reflexivity | split; [reflexivity |]].
  apply (parse_error_reply World js_empty (proxy false signer) broken_post fresh_response
           start_state (ErrorObject "SyntaxError" "JSON Parse error"));
    reflexivity.
Defined.

Lemma options_without_cors_witness :
  truthy (enableCors (config (proxy false signer))) = false
  /\ req_method preflight = "OPTIONS"
  /\ on_request js_empty (proxy false signer) preflight fresh_response start_state
     = (Returned {| headers := [("Content-Type", "application/json")];
                    statusCode := Some 405;
                    payload := Some (stringify (JObj [("error", JStr "Method not allowed")]));
                    finished := true |},
        start_state).
Proof.
  split; [reflexivity | split; [reflexivity |]].
  exact (proj1 (options_without_cors World js_empty (proxy false signer) preflight
                  fresh_response start_state eq_refl eq_refl)).
Defined.

Lemma cors_headers_on_every_response_witness :
  truthy (enableCors (config (proxy true signer))) = true
  /\ exists res' st',
       on_request js_empty (proxy true signer) broken_post fresh_response start_state
         = (Returned res', st')
       /\ header "Access-Control-Allow-Origin" (headers res') = Some "*"
       /\ header "Access-Control-Allow-Methods" (headers res') = Some "POST, OPTIONS"
       /\ header "Access-Control-Allow-Headers" (headers res') = Some "Content-Type".
Proof.
  split; [reflexivity |].
  apply (cors_headers_on_every_response World js_empty (proxy true signer) broken_post
           fresh_response start_state).
  reflexivity.
Defined.

Lemma response_id_of_own_envelopes_witness :
  nullish send_transaction = false
  /\ handleRequest js_empty (proxy false signer) send_transaction start_state
     = (Returned (JObj [("jsonrpc", JStr "2.0"); ("result", JStr "0xfeed");
                        ("id", JNum 2%float)]),
        after_sending)
  /\ intercepted (prop send_transaction "method") = true
  /\ prop (JObj [("jsonrpc", JStr "2.0"); ("result", JStr "0xfeed"); ("id", JNum 2%float)]) "id"
     = prop send_transaction "id".
Proof.
  split; [reflexivity | split; [reflexivity | split; [reflexivity |]]].
  apply (response_id_of_own_envelopes World js_empty (proxy false signer) send_transaction
           _ start_state after_sending);
    [reflexivity | reflexivity | left; reflexivity].
Defined.

Lemma own_envelopes_have_one_of_result_error_witness :
  nullish send_transaction = false
  /\ handleRequest js_empty (proxy false rejecting_signer) send_transaction start_state
     = (Returned (internal_error_envelope js_empty policy_rejection (JNum 2%float)),
        record (failure_entry send_transaction policy_rejection) after_rejection)
  /\ xorb (present "result" (internal_error_envelope js_empty policy_rejection (JNum 2%float)))
          (present "error" (internal_error_envelope js_empty policy_rejection (JNum 2%float)))
     = true.
Proof.
  split; [reflexivity | split; [reflexivity |]].
  apply (own_envelopes_have_one_of_result_error World js_empty (proxy false rejecting_signer)
           send_transaction _ start_state
           (record (failure_entry send_transaction policy_rejection) after_rejection));
    [reflexivity | reflexivity |].
  right. exists policy_rejection, after_rejection. reflexivity.
Defined.

(** *** Where three of the stated properties fail *)

(** C3 fails on a forwarded request: the node answers [{}], the proxy
    returns it, and the id 1 of the request is not in the response. *)
Lemma forwarded_id_not_echoed :
  fst (handleRequest js_empty (proxy false signer) get_balance start_state)
    = Returned (JObj [])
  /\ prop get_balance "id" = JNum 1%float
  /\ prop (JObj []) "id" = JUndefined
  /\ prop (JObj []) "id" <> prop get_balance "id".
Proof.
  repeat split. cbn. discriminate.
Qed.

(** C6 fails on the body of the outbound call: the client posts the empty
    object written with a space, [{ }]; the one call the proxy makes
    carries [{}], the serialisation of the parsed request. *)
Lemma forwarded_body_is_reserialised :
  read_body (req_chunks spaced_post) = "{ }"
  /\ JSON_parse js_spaced "{ }" = Returned (JObj [])
  /\ remote_calls
       (trace (snd (on_request js_spaced (proxy false signer) spaced_post fresh_response
                      start_state)))
     = [EvFetch "https://eth.llamarpc.com"
          {| init_method := "POST";
             init_headers := [("Content-Type", "application/json")];
             init_body := "{}" |}]
  /\ "{}" <> "{ }".
Proof.
  repeat split. discriminate.
Qed.

(** C4 fails on a forwarded request: the node answers [{}], the proxy
    returns it, and the response has neither [result] nor [error]. *)
Lemma forwarded_envelope_not_checked :
  fst (handleRequest js_empty (proxy false signer) get_balance start_state)
    = Returned (JObj [])
  /\ present "result" (JObj []) = false
  /\ present "error" (JObj []) = false
  /\ one_of_result_error (JObj []) = false.
Proof.
  repeat split.
Qed.

End Examples.

(** ** The rows and paths at work on the stand-ins *)

Section MoreExamples.

Import Doubles.

Lemma one_remote_call_per_request_witness :
  nullish get_balance = false
  /\ exists added,
       trace (snd (handleRequest js_down (proxy false signer) get_balance start_state))
         = (trace start_state ++ incoming_entry get_balance :: added)%list
       /\ length (remote_calls added) <= 1
       /\ (intercepted (prop get_balance "method") = true -> filter is_fetch added = [])
       /\ (intercepted (prop get_balance "method") = false ->
           filter is_signer_call added = [] /\ length (filter is_fetch added) = 1).
Proof.
  split; [reflexivity |].
  apply (one_remote_call_per_request World js_down (proxy false signer) get_balance
           start_state).
  reflexivity.
Defined.

Lemma eth_sendTransaction_row_witness :
  nullish send_transaction = false
  /\ prop send_transaction "method" = JStr "eth_sendTransaction"
  /\ get_index js_empty (prop send_transaction "params") 0 = Returned transfer
  /\ handleRequest js_empty (proxy false signer) send_transaction start_state
     = (Returned (JObj [("jsonrpc", JStr "2.0"); ("result", JStr "0xfeed");
                        ("id", JNum 2%float)]),
        {| world := {| submitted := [transfer] |};
           trace := [incoming_entry send_transaction; EvSendTransaction transfer;
                     EvLog Info "Transaction sent" [("hash", LogText "0xfeed")]] |}).
Proof.
  repeat (split; [reflexivity |]).
  exact (eth_sendTransaction_row World js_empty (proxy false signer) send_transaction
           transfer start_state eq_refl eq_refl eq_refl).
Defined.

Lemma eth_signTransaction_row_witness :
  nullish sign_transaction = false
  /\ prop sign_transaction "method" = JStr "eth_signTransaction"
  /\ get_index js_empty (prop sign_transaction "params") 0 = Returned transfer
  /\ handleRequest js_empty (proxy false signer) sign_transaction start_state
     = (Returned (JObj [("jsonrpc", JStr "2.0"); ("result", JStr "0x02f8");
                        ("id", JNum 3%float)]),
        {| world := empty_world;
           trace := [incoming_entry sign_transaction; EvSignTransaction transfer] |}).
Proof.
  repeat (split; [reflexivity |]).
  exact (eth_signTransaction_row World js_empty (proxy false signer) sign_transaction
           transfer start_state eq_refl eq_refl eq_refl).
Defined.

Lemma sign_message_row_witness :
  nullish personal_sign = false
  /\ prop personal_sign "method" = JStr "personal_sign"
  /\ get_index js_empty (prop personal_sign "params") 0 = Returned (JStr "0x68656c6c6f")
  /\ handleRequest js_empty (proxy false signer) personal_sign start_state
     = (Returned (JObj [("jsonrpc", JStr "2.0"); ("result", JStr "0x5163");
                        ("id", JStr "a1")]),
        {| world := empty_world;
           trace := [incoming_entry personal_sign; EvSignMessage (JStr "0x68656c6c6f")] |}).
Proof.
  repeat (split; [reflexivity |]).
  exact (sign_message_row World js_empty (proxy false signer) personal_sign
           (JStr "0x68656c6c6f") start_state eq_refl (or_intror eq_refl) eq_refl).
Defined.

Lemma sign_typed_data_row_witness :
  nullish sign_typed_data = false
  /\ prop sign_typed_data "method" = JStr "eth_signTypedData_v4"
  /\ get_index js_empty (prop sign_typed_data "params") 1 = Returned (JStr "{}")
  /\ JSON_parse js_empty (ToString js_empty (JStr "{}")) = Returned (JObj [])
  /\ nullish (JObj []) = false
  /\ handleRequest js_empty (proxy false signer) sign_typed_data start_state
     = (Returned (JObj [("jsonrpc", JStr "2.0"); ("result", JStr "0x712d");
                        ("id", JNum 4%float)]),
        {| world := empty_world;
           trace := [incoming_entry sign_typed_data;
                     EvSignTypedData JUndefined JUndefined JUndefined] |}).
Proof.
  repeat (split; [reflexivity |]).
  exact (sign_typed_data_row World js_empty (proxy false signer) sign_typed_data
           (JStr "{}") (JObj []) start_state eq_refl (or_intror (or_intror eq_refl))
           eq_refl eq_refl eq_refl).
Defined.

Lemma missing_params_is_internal_error_witness :
  nullish sign_without_params = false
  /\ nullish (prop sign_without_params "params") = true
  /\ reads_first_param (prop sign_without_params "method") = true
  /\ handleRequest js_empty (proxy false signer) sign_without_params start_state =
       (Returned (JObj [("jsonrpc", JStr "2.0");
                        ("error", JObj [("code", JNum (-32603)%float);
                                        ("message", JStr "Internal error");
                                        ("data", JStr "cannot read 0 of undefined")]);
                        ("id", JNum 6%float)]),
        {| world := empty_world;
           trace := [incoming_entry sign_without_params;
                     failure_entry sign_without_params
                       (type_error js_empty JUndefined "0")] |}).
Proof.
  repeat (split; [reflexivity |]).
  exact (proj1 (missing_params_is_internal_error World js_empty (proxy false signer)
                  sign_without_params start_state eq_refl eq_refl) eq_refl).
Defined.

Lemma malformed_typed_data_is_internal_error_witness :
  nullish sign_broken_typed_data = false
  /\ is_typed_data (prop sign_broken_typed_data "method") = true
  /\ get_index js_empty (prop sign_broken_typed_data "params") 1 = Returned (JStr "{oops")
  /\ JSON_parse js_empty (ToString js_empty (JStr "{oops"))
     = Threw (ErrorObject "SyntaxError" "JSON Parse error")
  /\ handleRequest js_empty (proxy false signer) sign_broken_typed_data start_state
     = (Returned (JObj [("jsonrpc", JStr "2.0");
                        ("error", JObj [("code", JNum (-32603)%float);
                                        ("message", JStr "Internal error");
                                        ("data", JStr "JSON Parse error")]);
                        ("id", JNum 5%float)]),
        {| world := empty_world;
           trace := [incoming_entry sign_broken_typed_data;
                     failure_entry sign_broken_typed_data
                       (ErrorObject "SyntaxError" "JSON Parse error")] |}).
Proof.
  repeat (split; [reflexivity |]).
  exact (malformed_typed_data_is_internal_error World js_empty (proxy false signer)
           sign_broken_typed_data (JStr "{oops") start_state eq_refl eq_refl eq_refl
           (ErrorObject "SyntaxError" "JSON Parse error") (or_introl eq_refl)).
Defined.

Lemma upstream_failure_row_witness :
  nullish get_balance = false
  /\ intercepted (prop get_balance "method") = false
  /\ upstream_answer js_down (upstreamRpcUrl (config (proxy false signer)))
       (upstream_init js_down get_balance) (world start_state)
     = (Threw fetch_failed, empty_world)
  /\ fst (handleRequest js_down (proxy false signer) get_balance start_state)
     = Returned (JObj [("jsonrpc", JStr "2.0");
                       ("error", JObj [("code", JNum (-32603)%float);
                                       ("message", JStr "Internal error");
                                       ("data", JStr "fetch failed")]);
                       ("id", JNum 1%float)]).
Proof.
  repeat (split; [reflexivity |]).
  exact (f_equal fst
           (upstream_failure_row World js_down (proxy false signer) get_balance start_state
              fetch_failed empty_world eq_refl eq_refl eq_refl)).
Defined.

Lemma unknown_method_is_forwarded_witness :
  nullish shouted_accounts = false
  /\ prop shouted_accounts "method" = JStr "ETH_ACCOUNTS"
  /\ exists added,
       trace (snd (handleRequest js_empty (proxy false signer) shouted_accounts start_state))
         = (trace start_state ++ incoming_entry shouted_accounts :: added)%list
       /\ filter is_signer_call added = []
       /\ filter is_fetch added =
            [EvFetch "https://eth.llamarpc.com"
               {| init_method := "POST";
                  init_headers := [("Content-Type", "application/json")];
                  init_body := stringify shouted_accounts |}].
Proof.
  repeat (split; [reflexivity |]).
  apply (unknown_method_is_forwarded World js_empty (proxy false signer) shouted_accounts
           start_state); [reflexivity |].
  intros name Hname. injection Hname as <-. cbn [In].
  intros [H | [H | [H | [H | [H | [H | [H | [H | []]]]]]]]]; discriminate H.
Defined.

Lemma log_output_by_setting_witness :
  nullish send_transaction = false
  /\ In (failure_entry send_transaction policy_rejection)
        (log_output (config (proxy false rejecting_signer))
           (trace (snd (handleRequest js_empty (proxy false rejecting_signer)
                          send_transaction start_state))))
  /\ written (logger_level (config (proxy false rejecting_signer)))
       (forwarding_entry send_transaction) = false.
Proof.
  split; [reflexivity |].
  destruct (log_output_by_setting World js_empty (proxy false rejecting_signer)
              send_transaction start_state eq_refl) as (_ & Hfailure & Hdebug).
  split; [| exact Hdebug].
  exact (Hfailure policy_rejection after_rejection eq_refl).
Defined.

Lemma status_table_witness :
  on_request js_empty (proxy false signer) null_post fresh_response start_state
    = (Returned {| headers := [("Content-Type", "application/json")];
                   statusCode := Some 400;
                   payload := Some (stringify parse_error_envelope);
                   finished := true |},
       record (parse_failure_entry "null" (type_error js_empty JNull "method")) start_state)
  /\ world (record (parse_failure_entry "null" (type_error js_empty JNull "method"))
              start_state)
     = world start_state.
Proof.
  split; [reflexivity |].
  exact (proj1 (proj2 (proj2 (status_table World js_empty (proxy false signer) null_post
                                fresh_response _ start_state _ eq_refl))
                  (or_intror (or_intror eq_refl)))).
Defined.

Lemma null_body_is_parse_error_witness :
  req_method null_post = "POST"
  /\ JSON_parse js_empty (read_body (req_chunks null_post)) = Returned JNull
  /\ nullish JNull = true
  /\ exists res',
       on_request js_empty (proxy false signer) null_post fresh_response start_state =
         (Returned res',
          record (parse_failure_entry (read_body (req_chunks null_post))
                    (type_error js_empty JNull "method")) start_state)
       /\ statusCode res' = Some 400
       /\ payload res' = Some (JSON_stringify js_empty parse_error_envelope).
Proof.
  repeat (split; [reflexivity |]).
  exact (null_body_is_parse_error World js_empty (proxy false signer) null_post
           fresh_response start_state JNull eq_refl eq_refl eq_refl).
Defined.

Lemma non_post_touches_nothing_witness :
  req_method get <> "POST"
  /\ snd (on_request js_empty (proxy false signer) get fresh_response start_state)
     = start_state.
Proof.
  assert (Hverb : req_method get <> "POST") by discriminate.
  split; [exact Hverb |].
  exact (proj1 (non_post_touches_nothing World js_empty (proxy false signer) get
                  fresh_response start_state Hverb)).
Defined.

Lemma preflight_under_cors_witness :
  truthy (enableCors (config (proxy true signer))) = true
  /\ req_method preflight = "OPTIONS"
  /\ on_request js_empty (proxy true signer) preflight fresh_response start_state =
       (Returned {| headers := [("Access-Control-Allow-Origin", "*");
                                ("Access-Control-Allow-Methods", "POST, OPTIONS");
                                ("Access-Control-Allow-Headers", "Content-Type")];
                    statusCode := Some 200;
                    payload := None;
                    finished := true |},
        start_state).
Proof.
  repeat (split; [reflexivity |]).
  exact (preflight_under_cors World js_empty (proxy true signer) preflight start_state
           eq_refl eq_refl).
Defined.

Lemma post_is_passed_through_witness :
  req_method empty_object_post = "POST"
  /\ JSON_parse js_empty (read_body (req_chunks empty_object_post)) = Returned (JObj [])
  /\ nullish (JObj []) = false
  /\ intercepted (prop (JObj []) "method") = false
  /\ upstream_answer js_empty (upstreamRpcUrl (config (proxy false signer)))
       (upstream_init js_empty (JObj [])) (world start_state)
     = (Returned (JObj []), empty_world)
  /\ exists res' st',
       on_request js_empty (proxy false signer) empty_object_post fresh_response start_state
         = (Returned res', st')
       /\ statusCode res' = Some 200
       /\ payload res' = Some (JSON_stringify js_empty (JObj []))
       /\ header "Content-Type" (headers res') = Some "application/json"
       /\ world st' = empty_world
       /\ remote_calls (trace st') =
            (remote_calls (trace start_state)
             ++ [EvFetch (upstreamRpcUrl (config (proxy false signer)))
                   {| init_method := "POST";
                      init_headers := [("Content-Type", "application/json")];
                      init_body := JSON_stringify js_empty (JObj []) |}])%list.
Proof.
  repeat (split; [reflexivity |]).
  exact (post_is_passed_through World js_empty (proxy false signer) empty_object_post
           fresh_response start_state (JObj []) (JObj []) empty_world
           eq_refl eq_refl eq_refl eq_refl eq_refl).
Defined.

Lemma no_cors_header_when_disabled_witness :
  truthy (enableCors (config (proxy false signer))) = false
  /\ exists res' st',
       on_request js_empty (proxy false signer) preflight fresh_response start_state
         = (Returned res', st')
       /\ headers res' = [("Content-Type", "application/json")].
Proof.
  split; [reflexivity |].
  exact (no_cors_header_when_disabled World js_empty (proxy false signer) preflight
           start_state eq_refl).
Defined.

Lemma loadConfig_succeeds_iff_witness :
  loadConfig parse_port environment = Loaded (config loaded_proxy)
  /\ Some (organizationId (turnkeyConfig (config loaded_proxy)))
     = environment "TURNKEY_ORGANIZATION_ID"
  /\ enableCors (config loaded_proxy) = Some (is_true_text (environment "ENABLE_CORS")).
Proof.
  split; [reflexivity |].
  destruct (proj2 (loadConfig_succeeds_iff parse_port environment) (config loaded_proxy)
              eq_refl) as (Horg & _ & _ & _ & _ & Hcors).
  split; [exact Horg | exact Hcors].
Defined.

Lemma loadConfig_names_what_is_missing_witness :
  loadConfig parse_port incomplete_environment
    = Exited 1 [MissingHeader; MissingVariable "TURNKEY_PRIVATE_KEY_ID";
                MissingVariable "TURNKEY_API_PRIVATE_KEY"; SecretsHint]
  /\ (forall name,
        In (MissingVariable name)
           [MissingHeader; MissingVariable "TURNKEY_PRIVATE_KEY_ID";
            MissingVariable "TURNKEY_API_PRIVATE_KEY"; SecretsHint]
        <-> In name required_names /\ given (incomplete_environment name) = false).
Proof.
  split; [reflexivity |].
  exact (proj2 (proj2 (loadConfig_names_what_is_missing parse_port incomplete_environment 1
                         _ eq_refl))).
Defined.

Lemma loadConfig_reads_nine_variables_witness :
  (forall name, In name read_names -> environment name = plain_environment name)
  /\ environment "UPSTREAM_RPC_URL" <> plain_environment "UPSTREAM_RPC_URL"
  /\ loadConfig parse_port environment = loadConfig parse_port plain_environment.
Proof.
  assert (Hsame : forall name, In name read_names -> environment name = plain_environment name).
  { intros name Hin. cbn [In read_names] in Hin.
    repeat (destruct Hin as [<- | Hin]; [reflexivity |]). destruct Hin. }
  split; [exact Hsame | split; [discriminate |]].
  exact (loadConfig_reads_nine_variables parse_port environment plain_environment Hsame).
Defined.

Lemma switches_need_exact_true_witness :
  loadConfig parse_port environment = Loaded (config loaded_proxy)
  /\ req_method preflight = "OPTIONS"
  /\ environment "ENABLE_CORS" = Some "TRUE"
  /\ exists res',
       on_request js_empty loaded_proxy preflight fresh_response start_state
         = (Returned res', start_state)
       /\ statusCode res' = Some 405.
Proof.
  repeat (split; [reflexivity |]).
  exact (proj1 (switches_need_exact_true parse_port World js_empty loaded_proxy environment
                  preflight fresh_response start_state eq_refl eq_refl)).
Defined.

End MoreExamples.
